(** * CNTK first-steps examples: logistic regression and MNIST

    A shallow embedding of the two example scripts
    [Examples/1stSteps/LogisticRegression_GraphAPI.py] and
    [Examples/1stSteps/MNIST_Complex_Training.py].

    Conventions.
    - Python integers are [Z]; sizes that numpy rejects when negative are [nat].
    - Arrays are lists, matrices are lists of rows.  A sparse CSR matrix is
      represented by its dense contents (the matrix [todense()] would give).
    - Floating-point values are idealised as real numbers; the conversion
      [astype(np.float32)] is kept as an unspecified rounding function.
    - numpy's global random generator is an explicit state that is threaded
      through the calls that draw from it. *)

From Stdlib Require Import ZArith Lia Reals Lra Permutation.
From stdpp Require Import base option list.

Local Open Scope Z_scope.

(** ** Python built-ins used by the scripts *)

Module Py.

(** [len(l)] *)
Definition len {A} (l : list A) : Z := Z.of_nat (length l).

(** Number of items of [range(start, stop, step)] for a non-zero step. *)
Definition range_len (start stop step : Z) : Z :=
  if 0 <? step then
    if start <? stop then (stop - start - 1) / step + 1 else 0
  else
    if stop <? start then (start - stop - 1) / (- step) + 1 else 0.

(** [range(start, stop, step)]; [None] is the [ValueError] raised for a
    zero step.  Item [k] of a range is [start + k * step]. *)
Definition range (start stop step : Z) : option (list Z) :=
  if step =? 0 then None
  else Some (map (fun k : nat => start + Z.of_nat k * step)
                 (seq 0 (Z.to_nat (range_len start stop step)))).

(** Clamping of one slice bound against a sequence of length [n]: a
    negative bound counts from the end. *)
Definition adjust_index (i n : Z) : Z :=
  if i <? 0 then Z.max (i + n) 0 else Z.min i n.

(** [l[start:stop]] *)
Definition slice {A} (l : list A) (start stop : Z) : list A :=
  let n := len l in
  let lo := adjust_index start n in
  let hi := adjust_index stop n in
  take (Z.to_nat (hi - lo)) (drop (Z.to_nat lo) l).

(** [l[i]]: a negative index counts from the end; [None] is the
    [IndexError] for an index outside the sequence. *)
Definition getitem {A} (l : list A) (i : Z) : option A :=
  let j := if i <? 0 then i + len l else i in
  if (0 <=? j) && (j <? len l) then l !! Z.to_nat j else None.

(** Clamping of one bound of an extended slice with a negative step: the
    bounds then range over [-1 .. n-1]. *)
Definition adjust_index_back (i n : Z) : Z :=
  if i <? 0 then Z.max (i + n) (-1) else Z.min i (n - 1).

(** [l[start:stop:step]] with explicit bounds; [None] is the [ValueError]
    raised for a zero step.  The bounds are clamped according to the sign of
    the step, and item [k] of the result is [l[start + k * step]]. *)
Definition slice_step {A} (l : list A) (start stop step : Z) : option (list A) :=
  if step =? 0 then None
  else
    let n := len l in
    let lo := if 0 <? step then adjust_index start n else adjust_index_back start n in
    let hi := if 0 <? step then adjust_index stop n else adjust_index_back stop n in
    mapM (fun k : nat => l !! Z.to_nat (lo + Z.of_nat k * step))
         (seq 0 (Z.to_nat (range_len lo hi step))).

End Py.

(** ** The minibatch loops of the logistic-regression script *)

Module Loop.

(** Number of minibatches taken from [n] samples: the full ones and, when
    samples remain, a last partial one. *)
Definition num_minibatches (n m : Z) : Z :=
  n / m + (if n mod m =? 0 then 0 else 1).

Section Loop.

(** The feature and label rows, the state the trainer (or evaluator)
    carries from one call to the next, and the call itself
    ([trainer.train_minibatch], [evaluator.test_minibatch]). *)
Context {sample label state : Type}.
Variable step_minibatch : state -> list sample * list label -> state.

(** The minibatches the loop
    [for i in range(0, len(X), minibatch_size): x = X[i:i+minibatch_size];
     y = Y[i:i+minibatch_size]]
    takes, in the order of the iteration. *)
Definition minibatches (X : list sample) (Y : list label) (minibatch_size : Z)
  : option (list (list sample * list label)) :=
  ixs ← Py.range 0 (Py.len X) minibatch_size;
  Some (map (fun i => (Py.slice X i (i + minibatch_size),
                       Py.slice Y i (i + minibatch_size))) ixs).

(** The loop body run over the items of a range. *)
Fixpoint for_each (X : list sample) (Y : list label) (minibatch_size : Z)
    (ixs : list Z) (st : state) : state :=
  match ixs with
  | [] => st
  | i :: rest =>
      let x := Py.slice X i (i + minibatch_size) in
      let y := Py.slice Y i (i + minibatch_size) in
      for_each X Y minibatch_size rest (step_minibatch st (x, y))
  end.

(** The whole loop; [None] when [range] raises. *)
Definition minibatch_loop (X : list sample) (Y : list label)
    (minibatch_size : Z) (st : state) : option state :=
  ixs ← Py.range 0 (Py.len X) minibatch_size;
  Some (for_each X Y minibatch_size ixs st).

End Loop.
End Loop.

(** ** numpy, scipy.sparse and scikit-learn as the scripts use them *)

Abbreviation vector := (list R).
Abbreviation matrix := (list (list R)).

(** The part of numpy the scripts rely on but do not fix: the global random
    generator and the rounding to single precision.  The laws are the
    documented contracts of the calls. *)
Class Numpy := {
  (** contents of numpy's global generator *)
  rng_state : Type;
  (** [np.random.seed(s)] replaces the global state by this one *)
  seed_state : Z -> rng_state;
  (** [np.random.randint(size=n, low=lo, high=hi)] *)
  randint : nat -> Z -> Z -> rng_state -> list Z * rng_state;
  (** [np.random.randn(n, d)] *)
  randn : nat -> nat -> rng_state -> matrix * rng_state;
  (** [np.random.permutation(n)], which [sklearn.utils.shuffle] draws *)
  permutation : nat -> rng_state -> list nat * rng_state;
  (** [v.astype(np.float32)] on one value *)
  astype_float32 : R -> R;

  randint_length : forall n lo hi s, length (randint n lo hi s).1 = n;
  randint_range : forall n lo hi s,
    lo < hi -> Forall (fun v => lo <= v < hi) (randint n lo hi s).1;
  randn_rows : forall n d s, length (randn n d s).1 = n;
  randn_cols : forall n d s, Forall (fun row => length row = d) (randn n d s).1;
  permutation_perm : forall n s, Permutation (permutation n s).1 (seq 0 n)
}.

(** A small deterministic generator that honours the contracts of [Numpy];
    its state is a counter.  It serves to run the scripts on concrete data. *)
Module Counter.

Definition randint (n : nat) (lo hi : Z) (s : Z) : list Z * Z :=
  (map (fun k : nat => lo + (s + Z.of_nat k) mod (hi - lo)) (seq 0 n),
   s + Z.of_nat n).

Definition randn (n d : nat) (s : Z) : matrix * Z :=
  (replicate n (replicate d (IZR s)), s + 1).

Definition permutation (n : nat) (s : Z) : list nat * Z :=
  (rev (seq 0 n), s + 1).

End Counter.

Module Np.

(** [np.random.seed(s)] as a step of the global generator: whatever the
    state was, it is replaced by the state of seed [s]. *)
Definition random_seed `{Numpy} (s : Z) (current : rng_state) : rng_state :=
  seed_state s.

(** [v.astype(int)]: truncation towards zero. *)
Definition astype_int (v : R) : Z :=
  if Rlt_dec v 0 then Zceil v else Zfloor v.

(** [np.ones(n, np.float32)] *)
Definition ones (n : nat) : vector := replicate n 1%R.

(** [a[idx]] with an integer index array; [None] is [IndexError]. *)
Definition fancy_index {A} (a : list A) (idx : list nat) : option (list A) :=
  mapM (fun i => a !! i) idx.

(** Position of the first maximum seen so far: [argmax_from i best v rest]
    scans [rest], whose first element has position [i], knowing that the
    best value so far is [v] at position [best]. *)
Fixpoint argmax_from (i best : nat) (v : R) (rest : vector) : nat :=
  match rest with
  | [] => best
  | x :: rest' =>
      if Rlt_dec v x then argmax_from (S i) i x rest'
      else argmax_from (S i) best v rest'
  end.

(** [v.argmax()]: index of the first occurrence of the maximum; [None] is
    the [ValueError] raised on an empty sequence. *)
Definition argmax (v : vector) : option nat :=
  match v with
  | [] => None
  | x :: rest => Some (argmax_from 1 0 x rest)
  end.

(** [v.sum()] *)
Definition sum (v : vector) : R := foldr Rplus 0%R v.

(** Position [i] holds the maximum of [v] and no other position does. *)
Definition is_unique_max (v : vector) (i : nat) : Prop :=
  exists m, v !! i = Some m /\
    forall j x, j <> i -> v !! j = Some x -> (x < m)%R.

End Np.

Module Sparse.

(** Adding [v] to entry [(i, j)] of a dense matrix. *)
Definition add_entry (M : matrix) (i j : nat) (v : R) : matrix :=
  alter (alter (Rplus v) j) i M.

(** The entries are accumulated one by one: duplicates of a position add up. *)
Fixpoint accumulate (M : matrix) (entries : list (R * (Z * Z))) : matrix :=
  match entries with
  | [] => M
  | (v, (i, j)) :: rest => accumulate (add_entry M (Z.to_nat i) (Z.to_nat j) v) rest
  end.

(** An index that a dimension of extent [n] admits. *)
Definition in_bounds (n : nat) (i : Z) : bool :=
  (0 <=? i) && (i <? Z.of_nat n).

(** [scipy.sparse.csr_matrix((data, (row_ind, col_ind)), shape=(n, m))]:
    the matrix [a] with [a[row_ind[k], col_ind[k]] = data[k]].  [None] is
    the [ValueError] raised when the three arrays differ in length or an
    index is negative or exceeds the shape. *)
Definition csr_matrix (data : vector) (row_ind col_ind : list Z)
    (shape : nat * nat) : option matrix :=
  let '(n, m) := shape in
  if negb ((length row_ind =? length data)%nat && (length col_ind =? length data)%nat)
  then None
  else if negb (forallb (in_bounds n) row_ind && forallb (in_bounds m) col_ind)
  then None
  else Some (accumulate (replicate n (replicate m 0%R))
                        (zip data (zip row_ind col_ind))).

(** The one-hot row for class [c] among [m] classes. *)
Definition one_hot (m : nat) (c : Z) : vector :=
  <[Z.to_nat c := 1%R]> (replicate m 0%R).

(** A row is a one-hot encoding: one entry is 1, all others are 0. *)
Definition is_one_hot (row : vector) : Prop :=
  exists c : nat, row !! c = Some 1%R /\
    forall j, j <> c -> (j < length row)%nat -> row !! j = Some 0%R.

(** A valid label row: one-hot, and so with entries that add up to one. *)
Definition valid_one_hot (row : vector) : Prop :=
  is_one_hot row /\ Np.sum row = 1%R.

End Sparse.

(** ** The framework operations the scripts call

    The framework's own sources are not among the example files; the
    operations below follow the specification's description of them. *)

Module Cntk.

(** Modelled from the spec: [cntk.times(x, W)] for one sample [x] and a
    parameter [W] of shape [(in_dim, out_dim)], the linear transform of a
    Dense layer, [y = x @ W].  [None] is the failure on a shape mismatch. *)
Definition times (in_dim out_dim : nat) (x : vector) (W : matrix) : option vector :=
  if negb ((length x =? in_dim)%nat && (length W =? in_dim)%nat
           && forallb (fun row => (length row =? out_dim)%nat) W)
  then None
  else Some (map (fun j => Np.sum (zip_with (fun xi row => (xi * nth j row 0)%R) x W))
                 (seq 0 out_dim)).

(** Modelled from the spec: [u + b] of a score vector and a bias parameter
    of the same shape; [None] on a shape mismatch. *)
Definition plus (u b : vector) : option vector :=
  if (length u =? length b)%nat then Some (zip_with Rplus u b) else None.

(** Modelled from the spec: [cntk.softmax], the normalisation that turns the
    raw scores of one sample into a probability distribution. *)
Definition softmax (z : vector) : vector :=
  let e := map exp z in
  map (fun v => (v / Np.sum e)%R) e.

(** A probability distribution over [k] classes. *)
Definition is_distribution (k : nat) (v : vector) : Prop :=
  length v = k /\ Forall (fun q => (0 <= q <= 1)%R) v /\ Np.sum v = 1%R.

(** Modelled from the spec: [cntk.classification_error] on one sample, the
    0/1 error that compares the highest-scoring class with the class of the
    one-hot label. *)
Definition classification_error (z label : vector) : option R :=
  p ← Np.argmax z;
  t ← Np.argmax label;
  Some (if decide (p = t) then 0%R else 1%R).

(** Modelled from the spec: the running totals an [Evaluator] accumulates
    over the held-out set. *)
Record evaluator := {
  metric_total : R;
  samples_seen : nat
}.

(** Modelled from the spec: a new [cntk.Evaluator], which has seen nothing. *)
Definition new_evaluator : evaluator :=
  {| metric_total := 0; samples_seen := 0 |}.

(** Modelled from the spec: [evaluator.summarize_test_progress()], the
    single averaged error rate. *)
Definition summarize_test_progress (ev : evaluator) : R :=
  (metric_total ev / INR (samples_seen ev))%R.

(** The layers library, on the shape of one sample. *)
Module Layers.

(** Modelled from the spec: the activation functions the script selects
    ([C.ops.relu], or none). *)
Inductive activation := relu | identity.

(** Modelled from the spec: the primitive layers of the layers library
    that the script assembles, with the options it sets. *)
Inductive layer :=
| Convolution2D (filter_shape : nat * nat) (num_filters : nat)
                (act : activation) (reduction_rank : nat) (pad : bool)
| MaxPooling (filter_shape : nat * nat) (strides : nat * nat) (pad : bool)
| Dense (out_dim : nat) (act : activation)
| Dropout.

(** Modelled from the spec: extent of one spatial axis of a convolution or
    pooling layer after a window of size [k] moved with stride [s]; with
    padding every stride position is kept, without it only the positions
    where the whole window fits.  [None] is the failure at construction. *)
Definition window_extent (pad : bool) (n k s : nat) : option nat :=
  if (s =? 0)%nat then None
  else if pad then Some ((n + s - 1) / s)%nat
  else if (n <? k)%nat then None
  else Some ((n - k) / s + 1)%nat.

(** Modelled from the spec: output shape of one layer of the layers
    library.  A convolution with [reduction_rank=0] takes an image without
    channel axis, otherwise the channel axis comes first; pooling keeps the
    channels; [Dense] flattens its input; [Dropout] keeps the shape. *)
Definition out_shape (l : layer) (shape : list nat) : option (list nat) :=
  match l with
  | Convolution2D (kh, kw) f _ rank pad =>
      match rank, shape with
      | O, [h; w] | S O, [_; h; w] =>
          h' ← window_extent pad h kh 1;
          w' ← window_extent pad w kw 1;
          Some [f; h'; w']
      | _, _ => None
      end
  | MaxPooling (kh, kw) (sh, sw) pad =>
      match shape with
      | [c; h; w] =>
          h' ← window_extent pad h kh sh;
          w' ← window_extent pad w kw sw;
          Some [c; h'; w']
      | _ => None
      end
  | Dense n _ => Some [n]
  | Dropout => Some shape
  end.

(** Modelled from the spec: [Sequential(layers)]; each layer is applied to
    the output of the previous one, and the shapes must compose. *)
Fixpoint Sequential (layers : list layer) (shape : list nat) : option (list nat) :=
  match layers with
  | [] => Some shape
  | l :: rest => out_shape l shape ≫= Sequential rest
  end.

(** Modelled from the spec: shape of the output for a batch; the batch axis
    is carried through the layers. *)
Definition batch_shape (layers : list layer) (batch : list nat) : option (list nat) :=
  match batch with
  | [] => None
  | batch_size :: sample_shape => (batch_size ::.) <$> Sequential layers sample_shape
  end.

End Layers.

End Cntk.

(** ** The logistic-regression script *)

Module LogisticRegression.

Definition input_dim : nat := 2.
Definition num_classes : nat := 2.

Section Data.
Context `{Numpy}.

(** [generate_synthetic_data(N)], run on the global generator state. *)
Definition generate_synthetic_data (N : nat) (s : rng_state)
  : option ((matrix * matrix) * rng_state) :=
  let '(Y, s1) := randint N 0 (Z.of_nat num_classes) s in
  let '(noise, s2) := randn N input_dim s1 in
  let X := zip_with (fun row y => map (fun v => ((v + 3) * IZR (y + 1))%R) row)
                    noise Y in
  Y1 ← Sparse.csr_matrix (Np.ones N) (map Z.of_nat (seq 0 N)) Y (N, num_classes);
  Some ((map (map astype_float32) X, Y1), s2).

(** The arrays the script builds. *)
Record datasets := {
  X_train : matrix; Y_train : matrix;
  X_test : matrix;  Y_test : matrix;
  X_check : matrix; Y_check : matrix
}.

(** The data-generating statements of the script in program order, from
    whatever state the generator is in when the interpreter starts:
    [np.random.seed(0)], then the three calls of
    [generate_synthetic_data].  Training and testing happen between the
    second and the third call and do not draw from numpy's generator. *)
Definition script_data (ambient : rng_state) : option datasets :=
  let s0 := Np.random_seed 0 ambient in
  '((Xtr, Ytr), s1) ← generate_synthetic_data (Z.to_nat 20000) s0;
  '((Xte, Yte), s2) ← generate_synthetic_data (Z.to_nat 1000) s1;
  '((Xck, Yck), s3) ← generate_synthetic_data (Z.to_nat 25) s2;
  Some {| X_train := Xtr; Y_train := Ytr; X_test := Xte; Y_test := Yte;
          X_check := Xck; Y_check := Yck |}.
End Data.

(** The learnable parameters [W] and [b]. *)
Record params := { W : matrix; b : vector }.

(** The shapes the two [cntk.Parameter] objects are constructed with. *)
Definition well_shaped (p : params) : Prop :=
  length (W p) = input_dim /\
  Forall (fun row => length row = num_classes) (W p) /\
  length (b p) = num_classes.

(** [model = cntk.times(data, W) + b] on one sample. *)
Definition model_row (p : params) (x : vector) : option vector :=
  u ← Cntk.times input_dim num_classes x (W p);
  Cntk.plus u (b p).

(** The model on a batch: one score row per sample. *)
Definition model (p : params) (X : matrix) : option matrix :=
  mapM (model_row p) X.

(** [get_probability = cntk.softmax(model)], evaluated on a batch. *)
Definition get_probability (p : params) (X : matrix) : option matrix :=
  map Cntk.softmax <$> model p X.

(** [[result[i,:].argmax() for i in range(len(result))]] *)
Definition predicted (result : matrix) : option (list nat) :=
  mapM Np.argmax result.

(** [[label.argmax() for label in Y_check]] *)
Definition printed_labels (Y : matrix) : option (list nat) :=
  mapM Np.argmax Y.

(** [metric = cntk.classification_error(model, label_one_hot)] on a
    minibatch, averaged over its samples. *)
Definition metric (p : params) (batch : matrix * matrix) : option R :=
  let '(x, y) := batch in
  if negb (length x =? length y)%nat then None
  else
    scores ← model p x;
    errs ← mapM (fun zl => Cntk.classification_error zl.1 zl.2) (zip scores y);
    Some (Np.sum errs / INR (length errs))%R.

(** A minibatch the metric can be computed on: feature rows of the input
    dimension, non-empty label rows, as many of the ones as of the others. *)
Definition valid_batch (batch : matrix * matrix) : Prop :=
  Forall (fun x => length x = input_dim) batch.1 /\
  Forall (fun y => y <> []) batch.2 /\
  length batch.1 = length batch.2.

(** [minibatch_size = 25] *)
Definition minibatch_size : Z := 25.

Section Training.

(** The update the learner ([cntk.sgd]) makes from one minibatch. *)
Variable learner : params -> matrix * matrix -> params.

(** [trainer.train_minibatch({data: x, label_one_hot: y})]; [None] once
    an exception was raised. *)
Definition train_minibatch (st : option params) (batch : matrix * matrix)
  : option params :=
  p ← st;
  _ ← metric p batch;
  Some (learner p batch).

(** The training loop of the script. *)
Definition train (p : params) (X Y : matrix) : option params :=
  mjoin (Loop.minibatch_loop train_minibatch X Y minibatch_size (Some p)).
End Training.

(** Modelled from the spec: [evaluator.test_minibatch({data: x,
    label_one_hot: y})] runs the forward computation of the metric and adds
    it to the evaluator's totals; it returns the minibatch average. *)
Definition test_minibatch (w : params * Cntk.evaluator) (batch : matrix * matrix)
  : option (R * (params * Cntk.evaluator)) :=
  let '(p, ev) := w in
  m ← metric p batch;
  let k := length batch.1 in
  Some (m, (p, {| Cntk.metric_total := (Cntk.metric_total ev + m * INR k)%R;
                  Cntk.samples_seen := (Cntk.samples_seen ev + k)%nat |})).

(** The loop body of the test loop: the returned metric is dropped. *)
Definition test_step (st : option (params * Cntk.evaluator))
    (batch : matrix * matrix) : option (params * Cntk.evaluator) :=
  w ← st;
  snd <$> test_minibatch w batch.

(** The test loop of the script, from a new [cntk.Evaluator]. *)
Definition test (p : params) (X Y : matrix) : option (params * Cntk.evaluator) :=
  mjoin (Loop.minibatch_loop test_step X Y minibatch_size
           (Some (p, Cntk.new_evaluator))).

Section Script.
Context `{Numpy}.

(** The update the learner makes from one minibatch. *)
Variable learner : params -> matrix * matrix -> params.

(** The script from top to bottom, for the initial values [p0] of the
    parameters: the data, the training loop, the test loop and the
    inspection of one generated batch.  The result is the two lists that are
    printed, the labels and the predictions; [None] when a statement raised. *)
Definition script (p0 : params) (ambient : rng_state)
  : option (list nat * list nat) :=
  d ← script_data ambient;
  p ← train learner p0 (X_train d) (Y_train d);
  _ ← test p (X_test d) (Y_test d);
  result ← get_probability p (X_check d);
  labels ← printed_labels (Y_check d);
  preds ← predicted result;
  Some (labels, preds).
End Script.

End LogisticRegression.

(** ** The MNIST script *)

Module Mnist.

Definition input_shape : list nat := [28; 28]%nat.
Definition num_classes : nat := 10.

(** What [datasets.fetch_mldata] returns: one row of pixel intensities per
    image, and the digit of each image as a floating-point number. *)
Record bunch := { data : list (list Z); target : vector }.

Abbreviation images := (list matrix).

(** [count] consecutive pieces of [n] elements. *)
Fixpoint chunks {A} (n count : nat) (l : list A) : list (list A) :=
  match count with
  | O => []
  | S c => take n l :: chunks n c (drop n l)
  end.

(** [X.reshape((-1,28,28))] of a two-dimensional array: the elements in row
    major order are regrouped into 28 x 28 images; [None] is the
    [ValueError] when their number is not a multiple of 784. *)
Definition reshape_images (X : matrix) : option images :=
  let flat := concat X in
  if (length flat mod 784 =? 0)%nat
  then Some (map (chunks 28 28) (chunks 784 (length flat / 784) flat))
  else None.

(** [scipy.sparse.csr_matrix((np.ones(len(Y),np.float32), (range(len(Y)), Y)),
    shape=(len(Y), 10))]: the one-hot labels, with ten columns. *)
Definition one_hot_labels (Y : list Z) : option matrix :=
  Sparse.csr_matrix (Np.ones (length Y)) (map Z.of_nat (seq 0 (length Y))) Y
                    (length Y, 10%nat).

Section Data.
Context `{Numpy}.

(** What the script makes of one row of the corpus: the pixels scaled by
    [1/255], arranged as a 28 x 28 image and rounded to single precision. *)
Definition prepare_image (row : list Z) : matrix :=
  map (map astype_float32) (chunks 28 28 (map (fun v => (IZR v / 255)%R) row)).

(** What the script makes of one target: the one-hot row of its digit. *)
Definition prepare_label (t : R) : vector :=
  Sparse.one_hot 10 (Np.astype_int t).

(** [sklearn.utils.shuffle(X, Y)]: one index permutation drawn from the
    global generator, applied to both arrays; [None] is the [ValueError]
    for arrays of different length. *)
Definition shuffle {A B} (X : list A) (Y : list B) (s : rng_state)
  : option ((list A * list B) * rng_state) :=
  if negb (length X =? length Y)%nat then None
  else
    let '(idx, s') := permutation (length X) s in
    X' ← Np.fancy_index X idx;
    Y' ← Np.fancy_index Y idx;
    Some ((X', Y'), s').

(** [fetch_mnist()], given the fetched corpus, run on the global
    generator state.  The result is
    [(X_train, Y_train, X_test, Y_test)]. *)
Definition fetch_mnist (mnist : bunch) (ambient : rng_state)
  : option ((images * matrix * images * matrix) * rng_state) :=
  let X := map (map (fun v => (IZR v / 255)%R)) (data mnist) in
  let Y := target mnist in
  X_train ← reshape_images (Py.slice X 0 60000);
  X_test ← reshape_images (Py.slice X 60000 (Py.len X));
  let Y_train := map Np.astype_int (Py.slice Y 0 60000) in
  let Y_test := map Np.astype_int (Py.slice Y 60000 (Py.len Y)) in
  let s0 := Np.random_seed 0 ambient in
  '((X_train, Y_train), s1) ← shuffle X_train Y_train s0;
  Y_train ← one_hot_labels Y_train;
  Y_test ← one_hot_labels Y_test;
  Some ((map (map (map astype_float32)) X_train, Y_train,
         map (map (map astype_float32)) X_test, Y_test), s1).
End Data.

(** [X_test[0:10000:400]] and [Y_test[0:10000:400]]: the subsample that is
    inspected at the end of the script. *)
Definition check_sample {A} (test : list A) : option (list A) :=
  Py.slice_step test 0 10000 400.

(** [[label.argmax() for label in Y_check]] *)
Definition printed_labels (Y : matrix) : option (list nat) :=
  mapM Np.argmax Y.

(** The progress record that [criterion.train] returns, as far as the
    script reads it: one summary per epoch, and the summary of the test. *)
Record summary := { loss : R; metric : R; samples : nat }.
Record progress := { epoch_summaries : list summary; test_summary : summary }.

(** [final_loss, final_metric, final_samples, test_metric =
     (progress.epoch_summaries[-1].loss, progress.epoch_summaries[-1].metric,
      progress.epoch_summaries[-1].samples, progress.test_summary.metric)] *)
Definition final_results (pr : progress) : option (R * R * nat * R) :=
  e1 ← Py.getitem (epoch_summaries pr) (-1);
  e2 ← Py.getitem (epoch_summaries pr) (-1);
  e3 ← Py.getitem (epoch_summaries pr) (-1);
  Some (loss e1, metric e2, samples e3, metric (test_summary pr)).

(** An image of 28 rows of 28 pixels. *)
Definition is_image (img : matrix) : Prop :=
  length img = 28%nat /\ Forall (fun row => length row = 28%nat) img.

Import Cntk.Layers.

(** The layers of [model], under
    [default_options(activation=relu, pad=False)]. *)
Definition model : list layer :=
  [ Convolution2D (5, 5)%nat 32 relu 0 true;
    MaxPooling (3, 3)%nat (2, 2)%nat false;
    Convolution2D (3, 3)%nat 48 relu 1 false;
    MaxPooling (3, 3)%nat (2, 2)%nat false;
    Convolution2D (3, 3)%nat 64 relu 1 false;
    Dense 96 relu;
    Dropout;
    Dense num_classes identity ].

(** [get_probability(data) = C.softmax(model(data))] on one sample, for a
    forward function [net] of the network. *)
Definition get_probability {tensor} (net : tensor -> option vector)
    (x : tensor) : option vector :=
  Cntk.softmax <$> net x.

End Mnist.

(** ** Concrete data for running the scripts *)

(** A corpus of two images, of the digits 3 and 7. *)
Definition two_digits : Mnist.bunch :=
  {| Mnist.data := [replicate 784 0; replicate 784 255];
     Mnist.target := [3; 7]%R |}.

(** A corpus of 60001 images of the digit 7: 60000 training samples and one
    test sample. *)
Definition one_test_row : Mnist.bunch :=
  {| Mnist.data := replicate (Z.to_nat 60001) (replicate 784 0);
     Mnist.target := replicate (Z.to_nat 60001) 7%R |}.

(** Identity weights and a zero bias. *)
Definition identity_params : LogisticRegression.params :=
  {| LogisticRegression.W := [[1; 0]; [0; 1]]%R; LogisticRegression.b := [0; 0]%R |}.

(** * Properties *)

(** ** Ranges, slices and the minibatch loop *)

Section PyLemmas.
Context {A : Type}.
Implicit Types l : list A.

Lemma take_clip l (a b : nat) :
  (a `min` length l = b `min` length l)%nat -> take a l = take b l.
Proof.
  intros H.
  destruct (Nat.le_gt_cases (length l) a), (Nat.le_gt_cases (length l) b).
  - by rewrite !take_ge.
  - lia.
  - lia.
  - f_equal. lia.
Qed.

Lemma slice_length l (a b : Z) :
  length (Py.slice l a b) =
  Z.to_nat (Py.adjust_index b (Py.len l) - Py.adjust_index a (Py.len l)).
Proof.
  unfold Py.slice, Py.adjust_index, Py.len.
  rewrite length_take, length_drop.
  destruct (a <? 0) eqn:Ha, (b <? 0) eqn:Hb; lia.
Qed.

Lemma slice_block l (k : nat) (m : Z) :
  0 < m ->
  Py.slice l (Z.of_nat k * m) (Z.of_nat k * m + m) =
  take (Z.to_nat m) (drop (k * Z.to_nat m) l).
Proof.
  intros Hm. unfold Py.slice, Py.adjust_index, Py.len.
  assert (H0 : 0 <= Z.of_nat k * m) by nia.
  destruct (Z.ltb_spec (Z.of_nat k * m) 0); [lia|].
  destruct (Z.ltb_spec (Z.of_nat k * m + m) 0); [lia|].
  set (n := length l).
  destruct (Z.le_gt_cases (Z.of_nat n) (Z.of_nat k * m)) as [Hge|Hlt].
  - rewrite !drop_ge; [by rewrite !take_nil| subst n; nia | subst n; lia].
  - replace (Z.to_nat (Z.min (Z.of_nat k * m) (Z.of_nat n))) with (k * Z.to_nat m)%nat by nia.
    apply take_clip. rewrite length_drop. fold n. nia.
Qed.

Lemma slice_prefix l (b : Z) : 0 <= b -> Py.slice l 0 b = take (Z.to_nat b) l.
Proof.
  intros Hb. unfold Py.slice, Py.adjust_index, Py.len. simpl.
  destruct (Z.ltb_spec b 0); [lia|].
  replace (Z.to_nat (0 `min` Z.of_nat (length l))) with 0%nat by lia.
  rewrite drop_0. apply take_clip. lia.
Qed.

Lemma slice_suffix l (a : Z) : 0 <= a -> Py.slice l a (Py.len l) = drop (Z.to_nat a) l.
Proof.
  intros Ha. unfold Py.slice, Py.adjust_index, Py.len.
  destruct (Z.ltb_spec a 0); [lia|].
  destruct (Z.ltb_spec (Z.of_nat (length l)) 0); [lia|].
  rewrite Z.min_id.
  destruct (Z.le_gt_cases (Z.of_nat (length l)) a).
  - rewrite !drop_ge by lia. by rewrite take_nil.
  - rewrite Z.min_l by lia. apply take_ge. rewrite length_drop. lia.
Qed.

(** The first [c] blocks of [M] elements make up the first [c * M] elements. *)
Lemma concat_blocks l (M c : nat) :
  concat (map (fun k => take M (drop (k * M) l)) (seq 0 c)) = take (c * M) l.
Proof.
  induction c as [|c IH]; [done|].
  rewrite seq_S, map_app, concat_app, IH. simpl.
  rewrite app_nil_r, take_take_drop. f_equal. lia.
Qed.
End PyLemmas.

Lemma range_from_zero (n m : Z) :
  0 <= n -> 0 < m ->
  Py.range 0 n m =
  Some (map (fun k : nat => Z.of_nat k * m)
            (seq 0 (Z.to_nat (n / m + (if n mod m =? 0 then 0 else 1))))).
Proof.
  intros Hn Hm. unfold Py.range, Py.range_len.
  destruct (Z.eqb_spec m 0); [lia|].
  destruct (Z.ltb_spec 0 m); [|lia].
  f_equal. 
  replace (if 0 <? n then (n - 0 - 1) / m + 1 else 0)
    with (n / m + (if n mod m =? 0 then 0 else 1)).
  { apply map_ext. intros; lia. }
  destruct (Z.ltb_spec 0 n).
  - pose proof (Z.div_mod n m ltac:(lia)) as Hd.
    pose proof (Z.mod_pos_bound n m Hm) as Hb.
    set (q := n / m) in *. set (r := n mod m) in *.
    destruct (Z.eqb_spec r 0) as [E|E].
    + replace (n - 0 - 1) with ((q - 1) * m + (m - 1)) by lia.
      rewrite Z.div_add_l by lia. rewrite Z.div_small by lia. lia.
    + replace (n - 0 - 1) with (q * m + (r - 1)) by lia.
      rewrite Z.div_add_l by lia. rewrite Z.div_small by lia. lia.
  - assert (n = 0) by lia. subst. reflexivity.
Qed.

Section LoopLemmas.
Context {sample label state : Type}.
Variable step : state -> list sample * list label -> state.

Lemma for_each_foldl X Y m ixs st :
  Loop.for_each step X Y m ixs st =
  foldl step st (map (fun i => (Py.slice X i (i + m), Py.slice Y i (i + m))) ixs).
Proof. revert st. induction ixs as [|i ixs IH]; intros st; simpl; [done|apply IH]. Qed.

Lemma minibatch_loop_foldl X Y m st :
  Loop.minibatch_loop step X Y m st =
  foldl step st <$> Loop.minibatches X Y m.
Proof.
  unfold Loop.minibatch_loop, Loop.minibatches.
  destruct (Py.range 0 (Py.len X) m) as [ixs|]; simpl; [|done].
  by rewrite for_each_foldl.
Qed.
End LoopLemmas.


Lemma minibatches_blocks {sample label} (X : list sample) (Y : list label) (m : Z) :
  0 < m ->
  Loop.minibatches X Y m =
  Some (map (fun k : nat => (take (Z.to_nat m) (drop (k * Z.to_nat m) X),
                             take (Z.to_nat m) (drop (k * Z.to_nat m) Y)))
            (seq 0 (Z.to_nat (Loop.num_minibatches (Py.len X) m)))).
Proof.
  intros Hm. unfold Loop.minibatches.
  rewrite range_from_zero by (unfold Py.len; lia). simpl.
  f_equal. rewrite map_map. apply map_ext. intros k.
  by rewrite !slice_block.
Qed.

Lemma num_minibatches_covers (n m : Z) :
  0 <= n -> 0 < m ->
  n <= Loop.num_minibatches n m * m /\ (Loop.num_minibatches n m - 1) * m < n \/ n = 0 /\ Loop.num_minibatches n m = 0.
Proof.
  intros Hn Hm. unfold Loop.num_minibatches.
  pose proof (Z.div_mod n m ltac:(lia)) as Hd.
  pose proof (Z.mod_pos_bound n m Hm) as Hb.
  set (q := n / m) in *. set (r := n mod m) in *.
  destruct (Z.eqb_spec r 0); [|left; nia].
  destruct (Z.eq_dec n 0); [right; split; [done|nia]|left; nia].
Qed.

Lemma minibatches_cover {sample label state}
    (step : state -> list sample * list label -> state)
    (X : list sample) (Y : list label) (m : Z) (st : state) :
  0 < m -> length Y = length X ->
  let n := Py.len X in
  exists bs,
    Loop.minibatches X Y m = Some bs /\
    Loop.minibatch_loop step X Y m st = Some (foldl step st bs) /\
    Z.of_nat (length bs) = n / m + (if n mod m =? 0 then 0 else 1) /\
    (forall k : nat, (k < length bs)%nat ->
       bs !! k = Some (Py.slice X (Z.of_nat k * m) (Z.of_nat k * m + m),
                       Py.slice Y (Z.of_nat k * m) (Z.of_nat k * m + m))) /\
    (forall (k : nat) x y, bs !! k = Some (x, y) ->
       length x = length y /\
       Py.len x = if decide (Z.of_nat k < n / m) then m else n mod m) /\
    concat bs.*1 = X /\ concat bs.*2 = Y.
Proof.
  intros Hm HXY n.
  pose proof (minibatches_blocks X Y m Hm) as Hbs. fold n in Hbs.
  set (M := Z.to_nat m) in *.
  set (c := Z.to_nat (Loop.num_minibatches n m)) in *.
  assert (Hn : 0 <= n) by (unfold n, Py.len; lia).
  pose proof (Z.div_mod n m ltac:(lia)) as Hd.
  pose proof (Z.mod_pos_bound n m Hm) as Hr.
  pose proof (Z.div_pos n m Hn Hm) as Hq.
  assert (Hc : Z.of_nat c = n / m + (if n mod m =? 0 then 0 else 1)).
  { unfold c, Loop.num_minibatches. destruct (n mod m =? 0); lia. }
  eexists. split; [exact Hbs|]. split; [|split; [|split; [|split; [|split]]]].
  - by rewrite minibatch_loop_foldl, Hbs.
  - by rewrite length_map, length_seq.
  - intros k Hk. rewrite length_map, length_seq in Hk.
    rewrite list_lookup_fmap, lookup_seq_lt by done. simpl.
    by rewrite !slice_block.
  - intros k x y Hk.
    rewrite list_lookup_fmap in Hk.
    destruct (seq 0 c !! k) as [k'|] eqn:Hs; [|done].
    apply lookup_seq in Hs as [-> Hlt]. simpl in Hk. injection Hk as <- <-.
    unfold Py.len. rewrite !length_take, !length_drop, HXY. split; [done|].
    fold (Py.len X). fold n.
    assert (HnX : Z.of_nat (length X) = n) by done.
    assert (HM : Z.of_nat M = m) by (unfold M; lia).
    assert (HkM : Z.of_nat (k * M) = Z.of_nat k * m) by nia.
    case_decide as Hkq.
    + assert (Z.of_nat k * m + m <= n) by nia. lia.
    + destruct (Z.eqb_spec (n mod m) 0) as [E|E]; [lia|].
      assert (Z.of_nat k = n / m) by lia.
      assert (Z.of_nat k * m = m * (n / m)) by nia. lia.
  - rewrite <- list_fmap_compose. unfold compose. simpl.
    change (concat ((fun k => take M (drop (k * M) X)) <$> seq 0 c) = X).
    rewrite concat_blocks. apply take_ge.
    destruct (num_minibatches_covers n m Hn Hm) as [[? ?]|[? ?]];
      unfold n, Py.len in *; nia.
  - rewrite <- list_fmap_compose. unfold compose. simpl.
    change (concat ((fun k => take M (drop (k * M) Y)) <$> seq 0 c) = Y).
    rewrite concat_blocks. apply take_ge. rewrite HXY.
    destruct (num_minibatches_covers n m Hn Hm) as [[? ?]|[? ?]];
      unfold n, Py.len in *; nia.
Qed.

(** A zero minibatch size makes [range] raise, a negative one makes the loop
    body never run. *)
Lemma minibatches_zero_step {sample label} (X : list sample) (Y : list label) :
  Loop.minibatches X Y 0 = None.
Proof. reflexivity. Qed.

Lemma minibatches_negative_step {sample label} (X : list sample) (Y : list label)
    (m : Z) :
  m < 0 -> Loop.minibatches X Y m = Some [].
Proof.
  intros Hm. unfold Loop.minibatches, Py.range, Py.range_len, Py.len.
  destruct (Z.eqb_spec m 0); [lia|].
  destruct (Z.ltb_spec 0 m); [lia|].
  destruct (Z.ltb_spec (Z.of_nat (length X)) 0); [lia|done].
Qed.

(** The training loop of the script makes its updates from the minibatches,
    one after the other. *)
Lemma train_foldl (learner : LogisticRegression.params -> matrix * matrix ->
                             LogisticRegression.params)
    (p : LogisticRegression.params) (X Y : matrix) :
  LogisticRegression.train learner p X Y =
  mjoin (foldl (LogisticRegression.train_minibatch learner) (Some p) <$>
         Loop.minibatches X Y LogisticRegression.minibatch_size).
Proof. unfold LogisticRegression.train. by rewrite minibatch_loop_foldl. Qed.

Example range_by_two : Py.range 0 5 2 = Some [0; 2; 4].
Proof. reflexivity. Qed.

Example slice_past_the_end : Py.slice [1; 2; 3; 4; 5] 4 (4 + 2) = [5].
Proof. reflexivity. Qed.

Example slice_from_the_end : Py.slice [1; 2; 3; 4; 5] (-2) 10 = [4; 5].
Proof. reflexivity. Qed.

(** *** One-hot rows built by [csr_matrix] *)


Lemma alter_zero_row (m j : nat) :
  alter (Rplus 1) j (replicate m 0%R) = <[j := 1%R]> (replicate m 0%R).
Proof.
  apply list_eq. intros i.
  rewrite list_lookup_alter, list_lookup_insert, length_replicate.
  destruct (decide (j = i)) as [->|Hne].
  - destruct (decide (i < m)%nat) as [Hlt|Hge].
    + rewrite lookup_replicate_2 by done. simpl.
      rewrite decide_True by done. f_equal. lra.
    + rewrite decide_False by tauto.
      rewrite lookup_ge_None_2 by (rewrite length_replicate; lia). done.
  - by rewrite decide_False by tauto.
Qed.

Lemma accumulate_rows (m : nat) (Ys : list Z) (done_rows : matrix) :
  Sparse.accumulate (done_rows ++ replicate (length Ys) (replicate m 0%R))
    (zip (replicate (length Ys) 1%R)
         (zip (map Z.of_nat (seq (length done_rows) (length Ys))) Ys)) =
  done_rows ++ map (Sparse.one_hot m) Ys.
Proof.
  revert done_rows. induction Ys as [|c Ys IH]; intros done_rows; [done|].
  simpl. unfold Sparse.add_entry. rewrite Nat2Z.id.
  replace (length done_rows) with (length done_rows + 0)%nat at 1 by lia.
  rewrite alter_app_r. simpl. rewrite alter_zero_row.
  specialize (IH (done_rows ++ [Sparse.one_hot m c])).
  rewrite length_app in IH. simpl in IH.
  replace (length done_rows + 1)%nat with (S (length done_rows)) in IH by lia.
  rewrite <- !app_assoc in IH. exact IH.
Qed.

Lemma in_bounds_spec (n : nat) (i : Z) :
  Sparse.in_bounds n i = true <-> 0 <= i < Z.of_nat n.
Proof. unfold Sparse.in_bounds. rewrite andb_true_iff. lia. Qed.

Lemma forallb_in_bounds_seq (n : nat) :
  forallb (Sparse.in_bounds n) (map Z.of_nat (seq 0 n)) = true.
Proof.
  apply forallb_forall. intros i Hi. apply in_map_iff in Hi as [k [<- Hk]].
  apply in_seq in Hk. apply in_bounds_spec. lia.
Qed.

(** The labels matrix [csr_matrix((ones(n), (range(n), Y)), shape=(n, m))]. *)
Lemma csr_one_hot (m : nat) (Y : list Z) :
  Sparse.csr_matrix (Np.ones (length Y)) (map Z.of_nat (seq 0 (length Y))) Y
                    (length Y, m) =
  if forallb (Sparse.in_bounds m) Y then Some (map (Sparse.one_hot m) Y) else None.
Proof.
  unfold Sparse.csr_matrix, Np.ones.
  rewrite length_map, length_seq, length_replicate, !Nat.eqb_refl. simpl.
  rewrite forallb_in_bounds_seq. simpl.
  destruct (forallb (Sparse.in_bounds m) Y); simpl; [|done].
  f_equal. apply (accumulate_rows m Y []).
Qed.

Lemma sum_insert_zero (m j : nat) :
  (j < m)%nat -> Np.sum (<[j := 1%R]> (replicate m 0%R)) = 1%R.
Proof.
  revert j. induction m as [|m IH]; intros j Hj; [lia|].
  destruct j as [|j]; simpl.
  - assert (Hz : Np.sum (replicate m 0%R) = 0%R).
    { clear. induction m as [|m IH]; simpl; [done|]. unfold Np.sum in *. simpl. rewrite IH. lra. }
    unfold Np.sum in *. simpl. rewrite Hz. lra.
  - unfold Np.sum in *. simpl. rewrite IH by lia. lra.
Qed.

Lemma one_hot_valid (m : nat) (c : Z) :
  0 <= c < Z.of_nat m -> Sparse.valid_one_hot (Sparse.one_hot m c).
Proof.
  intros Hc. unfold Sparse.one_hot. split.
  - exists (Z.to_nat c). split.
    + rewrite list_lookup_insert, length_replicate. by rewrite decide_True by lia.
    + intros j Hj Hlt. rewrite length_insert, length_replicate in Hlt.
      rewrite list_lookup_insert, decide_False by (intros [? _]; lia).
      by apply lookup_replicate_2.
  - apply sum_insert_zero. lia.
Qed.

Lemma one_hot_length (m : nat) (c : Z) : length (Sparse.one_hot m c) = m.
Proof. unfold Sparse.one_hot. by rewrite length_insert, length_replicate. Qed.

Lemma forallb_in_bounds (m : nat) (Y : list Z) :
  forallb (Sparse.in_bounds m) Y = true <-> Forall (fun c => 0 <= c < Z.of_nat m) Y.
Proof.
  rewrite forallb_forall, Forall_forall.
  split; intros Hall c Hc.
  - apply in_bounds_spec, Hall. by apply list_elem_of_In.
  - apply in_bounds_spec, Hall. by apply list_elem_of_In.
Qed.

Lemma map_zip_with {A B C D} (h : C -> D) (f : A -> B -> C) (l : list A) (k : list B) :
  map h (zip_with f l k) = zip_with (fun a b => h (f a b)) l k.
Proof.
  revert k. induction l as [|a l IH]; intros [|b k]; simpl; [done..|].
  by rewrite IH.
Qed.

Section Generator.
Context `{Numpy}.
Import LogisticRegression.

(** What [generate_synthetic_data] returns, in terms of the two draws. *)
Lemma generate_synthetic_data_eq (N : nat) (s : rng_state) :
  let labels := (randint N 0 (Z.of_nat num_classes) s).1 in
  let s1 := (randint N 0 (Z.of_nat num_classes) s).2 in
  let noise := (randn N input_dim s1).1 in
  let s2 := (randn N input_dim s1).2 in
  generate_synthetic_data N s =
  Some ((zip_with (fun row y => map (fun v => astype_float32 ((v + 3) * IZR (y + 1))) row)
                  noise labels,
         map (Sparse.one_hot num_classes) labels), s2).
Proof.
  intros labels s1 noise s2. unfold generate_synthetic_data.
  pose proof (randint_length N 0 (Z.of_nat num_classes) s) as Hlen.
  pose proof (randint_range N 0 (Z.of_nat num_classes) s ltac:(done)) as Hrange.
  fold labels in Hlen, Hrange.
  destruct (randint N 0 (Z.of_nat num_classes) s) as [Y s1'] eqn:Hri.
  simpl in labels, s1. subst labels s1.
  destruct (randn N input_dim s1') as [Z0 s2'] eqn:Hrn.
  simpl in noise, s2. subst noise s2.
  rewrite <- Hlen, csr_one_hot.
  rewrite (proj2 (forallb_in_bounds _ _) Hrange). simpl.
  do 3 f_equal.
  rewrite map_zip_with. apply zip_with_ext; [|done..].
  intros row y. by rewrite map_map.
Qed.

Lemma generate_synthetic_data_rows (N : nat) (s : rng_state) :
  exists X Y s',
    generate_synthetic_data N s = Some ((X, Y), s') /\
    length X = N /\ Forall (fun row => length row = input_dim) X /\
    length Y = N /\ Forall (fun row => length row = num_classes) Y /\
    Forall Sparse.valid_one_hot Y /\
    forall i : nat, (i < N)%nat ->
      exists (c : Z) (noise x y : vector),
        X !! i = Some x /\ Y !! i = Some y /\
        0 <= c < Z.of_nat num_classes /\
        y = Sparse.one_hot num_classes c /\
        x = map (fun v => astype_float32 ((v + 3) * IZR (c + 1))) noise.
Proof.
  pose proof (generate_synthetic_data_eq N s) as Heq. simpl in Heq.
  pose proof (randint_length N 0 (Z.of_nat num_classes) s) as Hlen.
  pose proof (randint_range N 0 (Z.of_nat num_classes) s ltac:(done)) as Hrange.
  set (labels := (randint N 0 (Z.of_nat num_classes) s).1) in *.
  set (s1 := (randint N 0 (Z.of_nat num_classes) s).2) in *.
  pose proof (randn_rows N input_dim s1) as Hrows.
  pose proof (randn_cols N input_dim s1) as Hcols.
  set (noise := (randn N input_dim s1).1) in *.
  eexists _, _, _. split; [exact Heq|].
  split; [by rewrite length_zip_with; lia|].
  split.
  { apply Forall_lookup. intros i x Hx.
    apply lookup_zip_with_Some in Hx as (row & y & -> & Hrow & Hy).
    rewrite length_map. by eapply Forall_lookup_1 in Hcols. }
  split; [by rewrite length_map|].
  split.
  { apply Forall_fmap, Forall_true. intros c. apply one_hot_length. }
  split.
  { apply Forall_fmap. eapply Forall_impl; [exact Hrange|].
    intros c Hc. by apply one_hot_valid. }
  intros i Hi.
  destruct (lookup_lt_is_Some_2 labels i ltac:(lia)) as [c Hc].
  destruct (lookup_lt_is_Some_2 noise i ltac:(lia)) as [row Hrow].
  exists c, row. eexists _, _.
  split; [|split; [|split; [|split; reflexivity]]].
  - rewrite lookup_zip_with, Hrow. simpl. by rewrite Hc.
  - by rewrite list_lookup_fmap, Hc.
  - by eapply Forall_lookup_1 in Hrange.
Qed.

(** The seeded script does not depend on the state the generator starts in. *)
Lemma script_data_seeded (ambient1 ambient2 : rng_state) :
  script_data ambient1 = script_data ambient2.
Proof. reflexivity. Qed.

Lemma script_data_returns (ambient : rng_state) :
  exists d, script_data ambient = Some d /\
    length (X_train d) = Z.to_nat 20000 /\ length (Y_train d) = Z.to_nat 20000 /\
    length (X_test d) = Z.to_nat 1000 /\ length (Y_test d) = Z.to_nat 1000 /\
    length (X_check d) = Z.to_nat 25 /\ length (Y_check d) = Z.to_nat 25.
Proof.
  unfold script_data.
  destruct (generate_synthetic_data_rows (Z.to_nat 20000) (Np.random_seed 0 ambient))
    as (X1 & Y1 & s1 & -> & HX1 & _ & HY1 & _).
  destruct (generate_synthetic_data_rows (Z.to_nat 1000) s1)
    as (X2 & Y2 & s2 & E2 & HX2 & _ & HY2 & _).
  destruct (generate_synthetic_data_rows (Z.to_nat 25) s2)
    as (X3 & Y3 & s3 & E3 & HX3 & _ & HY3 & _).
  cbn [mbind option_bind]. rewrite E2. cbn [mbind option_bind]. rewrite E3.
  cbn [mbind option_bind]. eexists. split; [reflexivity|]. by cbn [X_train Y_train X_test Y_test X_check Y_check].
Qed.
End Generator.

(** *** Softmax and argmax *)

Section Softmax.
Local Open Scope R_scope.

Lemma sum_exp_nonneg (z : vector) : 0 <= Np.sum (map exp z).
Proof.
  induction z as [|x z IH]; unfold Np.sum in *; simpl; [lra|].
  pose proof (exp_pos x). lra.
Qed.

Lemma sum_exp_pos (z : vector) : z <> [] -> 0 < Np.sum (map exp z).
Proof.
  destruct z as [|x z]; [done|]. intros _.
  pose proof (sum_exp_nonneg z). pose proof (exp_pos x).
  unfold Np.sum in *. simpl. lra.
Qed.

Lemma sum_scale (c : R) (v : vector) :
  Np.sum (map (fun x => x / c) v) = Np.sum v / c.
Proof.
  induction v as [|x v IH]; unfold Np.sum in *; simpl; [lra|].
  rewrite IH. lra.
Qed.

Lemma softmax_length (z : vector) : length (Cntk.softmax z) = length z.
Proof. unfold Cntk.softmax. by rewrite !length_map. Qed.

Lemma softmax_sum (z : vector) : z <> [] -> Np.sum (Cntk.softmax z) = 1.
Proof.
  intros Hz. unfold Cntk.softmax. rewrite sum_scale.
  pose proof (sum_exp_pos z Hz). by field_simplify; [|lra].
Qed.

Lemma elem_le_sum (v : vector) (x : R) :
  Forall (fun y => 0 <= y) v -> x ∈ v -> x <= Np.sum v.
Proof.
  induction 1 as [|y v Hy Hv IH]; intros Hin; [by apply elem_of_nil in Hin|].
  assert (0 <= Np.sum v).
  { clear -Hv. induction Hv; unfold Np.sum in *; simpl; lra. }
  apply elem_of_cons in Hin as [->|Hin]; unfold Np.sum in *; simpl.
  - lra.
  - specialize (IH Hin). lra.
Qed.

Lemma softmax_bounds (z : vector) :
  Forall (fun q => 0 <= q <= 1) (Cntk.softmax z).
Proof.
  unfold Cntk.softmax. apply Forall_fmap, Forall_forall. intros e He. simpl.
  assert (Hne : z <> []).
  { intros ->. by apply elem_of_nil in He. }
  pose proof (sum_exp_pos z Hne) as HS.
  assert (Hpos : 0 < e).
  { apply list_elem_of_fmap in He as (x & -> & _). apply exp_pos. }
  assert (Hle : e <= Np.sum (map exp z)).
  { apply elem_le_sum; [|done]. apply Forall_fmap, Forall_true. intros x. simpl.
    pose proof (exp_pos x). lra. }
  split.
  - apply Rlt_le, Rdiv_lt_0_compat; done.
  - apply (Rmult_le_reg_r (Np.sum (map exp z))); [done|].
    unfold Rdiv. rewrite Rmult_assoc, Rinv_l by lra. lra.
Qed.

Lemma softmax_distribution (z : vector) :
  z <> [] -> Cntk.is_distribution (length z) (Cntk.softmax z).
Proof.
  intros Hz. split; [apply softmax_length|].
  split; [apply softmax_bounds|by apply softmax_sum].
Qed.





(** [argmax_from] returns the position of a maximum of the whole list. *)
Lemma argmax_from_max (pre rest : vector) (best : nat) (v : R) :
  pre !! best = Some v ->
  (forall j x, pre !! j = Some x -> x <= v) ->
  exists m, (pre ++ rest) !! Np.argmax_from (length pre) best v rest = Some m /\
    forall j x, (pre ++ rest) !! j = Some x -> x <= m.
Proof.
  revert pre best v.
  induction rest as [|x rest IH]; intros pre best v Hbest Hmax; simpl.
  - exists v. rewrite app_nil_r. done.
  - destruct (Rlt_dec v x) as [Hlt|Hge].
    + specialize (IH (pre ++ [x]) (length pre) x).
      rewrite length_app, <- app_assoc in IH. simpl in IH.
      replace (length pre + 1)%nat with (S (length pre)) in IH by lia.
      apply IH.
      * by rewrite lookup_app_r, Nat.sub_diag.
      * intros j y Hj. apply lookup_app_Some in Hj as [Hj|[_ Hj]].
        -- specialize (Hmax j y Hj). lra.
        -- apply list_lookup_singleton_Some in Hj as [_ ->]. lra.
    + specialize (IH (pre ++ [x]) best v).
      rewrite length_app, <- app_assoc in IH. simpl in IH.
      replace (length pre + 1)%nat with (S (length pre)) in IH by lia.
      apply IH.
      * by apply lookup_app_l_Some.
      * intros j y Hj. apply lookup_app_Some in Hj as [Hj|[_ Hj]].
        -- by apply (Hmax j).
        -- apply list_lookup_singleton_Some in Hj as [_ ->]. lra.
Qed.

Lemma argmax_max (z : vector) (k : nat) :
  Np.argmax z = Some k ->
  exists m, z !! k = Some m /\ forall j x, z !! j = Some x -> x <= m.
Proof.
  destruct z as [|x z]; simpl; [done|]. intros [= <-].
  apply (argmax_from_max [x] z 0 x); [done|].
  intros j y Hj. apply list_lookup_singleton_Some in Hj as [_ ->]. lra.
Qed.

Lemma argmax_unique_max (z : vector) (i : nat) :
  Np.is_unique_max z i -> Np.argmax z = Some i.
Proof.
  intros (m & Hi & Huniq).
  destruct (Np.argmax z) as [k|] eqn:Hk.
  - destruct (argmax_max z k Hk) as (mk & Hmk & Hall).
    destruct (decide (k = i)) as [->|Hne]; [done|].
    specialize (Huniq k mk Hne Hmk). specialize (Hall i m Hi). lra.
  - destruct z; [by rewrite lookup_nil in Hi|done].
Qed.
End Softmax.

(** *** The logistic-regression model *)

Section Model.
Import LogisticRegression.

Lemma forallb_length_eq (n : nat) (M : matrix) :
  Forall (fun row => length row = n) M ->
  forallb (fun row => (length row =? n)%nat) M = true.
Proof.
  intros HM. apply forallb_forall. intros row Hrow.
  apply Nat.eqb_eq. rewrite Forall_forall in HM. by apply HM, list_elem_of_In.
Qed.

Lemma times_shape (in_dim out_dim : nat) (x : vector) (M : matrix) :
  length x = in_dim -> length M = in_dim ->
  Forall (fun row => length row = out_dim) M ->
  exists u, Cntk.times in_dim out_dim x M = Some u /\ length u = out_dim.
Proof.
  intros Hx HM Hrows. unfold Cntk.times.
  rewrite Hx, HM, Nat.eqb_refl, forallb_length_eq by done. simpl.
  eexists. split; [done|]. by rewrite length_map, length_seq.
Qed.

Lemma model_row_shape (p : params) (x : vector) :
  well_shaped p -> length x = input_dim ->
  exists z, model_row p x = Some z /\ length z = num_classes.
Proof.
  intros (HW & Hrows & Hb) Hx. unfold model_row.
  destruct (times_shape input_dim num_classes x (W p) Hx HW Hrows) as (u & -> & Hu).
  simpl. unfold Cntk.plus. rewrite Hu, Hb, Nat.eqb_refl.
  eexists. split; [done|]. rewrite length_zip_with. lia.
Qed.

Lemma model_shape (p : params) (X : matrix) :
  well_shaped p -> Forall (fun x => length x = input_dim) X ->
  exists S, model p X = Some S /\ length S = length X /\
    Forall (fun z => length z = num_classes) S.
Proof.
  intros Hp HX. unfold model.
  induction HX as [|x X Hx HX IH].
  - exists []. done.
  - destruct IH as (S & HS & Hlen & Hrows).
    destruct (model_row_shape p x Hp Hx) as (z & Hz & Hzlen).
    exists (z :: S). split; [|split].
    + rewrite mapM_Some. constructor; [done|]. by apply mapM_Some.
    + simpl. by rewrite Hlen.
    + by constructor.
Qed.

Lemma get_probability_distribution (p : params) (X : matrix) :
  well_shaped p -> Forall (fun x => length x = input_dim) X ->
  exists P, get_probability p X = Some P /\ length P = length X /\
    Forall (Cntk.is_distribution num_classes) P.
Proof.
  intros Hp HX. unfold get_probability.
  destruct (model_shape p X Hp HX) as (S & -> & Hlen & Hrows).
  simpl. eexists. split; [done|]. split; [by rewrite length_map|].
  apply Forall_fmap. eapply Forall_impl; [exact Hrows|].
  intros z Hz. simpl. rewrite <- Hz. apply softmax_distribution.
  intros ->. done.
Qed.


Lemma classification_error_returns (z label : vector) :
  z <> [] -> label <> [] -> is_Some (Cntk.classification_error z label).
Proof.
  intros Hz Hl. unfold Cntk.classification_error.
  destruct z as [|a z]; [done|]. destruct label as [|c label]; [done|].
  simpl. eauto.
Qed.

Lemma metric_returns (p : params) (batch : matrix * matrix) :
  well_shaped p -> valid_batch batch -> is_Some (metric p batch).
Proof.
  intros Hp. destruct batch as [x y]. intros (Hx & Hy & Hlen). simpl in *.
  unfold metric. rewrite Hlen, Nat.eqb_refl. simpl.
  destruct (model_shape p x Hp Hx) as (S & -> & HS & Hrows). simpl.
  assert (Herrs : is_Some (mapM (fun zl : vector * vector =>
                    Cntk.classification_error zl.1 zl.2) (zip S y))).
  { apply mapM_is_Some_2, Forall_forall. intros [z l] Hzl. simpl.
    apply list_elem_of_lookup in Hzl as [i Hi].
    apply lookup_zip_with_Some in Hi as (z' & l' & [= -> ->] & Hz & Hl).
    apply classification_error_returns.
    - eapply Forall_lookup_1 in Hrows; [|exact Hz]. simpl in Hrows.
      intros ->. done.
    - by eapply Forall_lookup_1 in Hy. }
  destruct Herrs as [errs ->]. simpl. eauto.
Qed.

Lemma test_minibatch_params (p : params) (ev : Cntk.evaluator)
    (batch : matrix * matrix) (m : R) (w : params * Cntk.evaluator) :
  test_minibatch (p, ev) batch = Some (m, w) ->
  metric p batch = Some m /\ w.1 = p /\
  Cntk.samples_seen w.2 = (Cntk.samples_seen ev + length batch.1)%nat.
Proof.
  unfold test_minibatch. destruct (metric p batch) as [m'|]; simpl; [|done].
  by intros [= <- <-].
Qed.

Lemma test_minibatch_returns (p : params) (ev : Cntk.evaluator)
    (batch : matrix * matrix) :
  well_shaped p -> valid_batch batch ->
  exists m ev', test_minibatch (p, ev) batch = Some (m, (p, ev')) /\
    metric p batch = Some m /\
    Cntk.samples_seen ev' = (Cntk.samples_seen ev + length batch.1)%nat.
Proof.
  intros Hp Hb. destruct (metric_returns p batch Hp Hb) as [m Hm].
  unfold test_minibatch. rewrite Hm. simpl. by eexists _, _.
Qed.

Lemma test_steps_params (p : params) (bs : list (matrix * matrix))
    (ev : Cntk.evaluator) :
  well_shaped p -> Forall valid_batch bs ->
  exists ev', foldl test_step (Some (p, ev)) bs = Some (p, ev') /\
    Cntk.samples_seen ev' = (Cntk.samples_seen ev + length (concat bs.*1))%nat.
Proof.
  intros Hp Hbs. revert ev.
  induction Hbs as [|batch bs Hb Hbs IH]; intros ev; cbn [foldl].
  - exists ev. split; [done|simpl; lia].
  - destruct (test_minibatch_returns p ev batch Hp Hb) as (m & ev1 & E & _ & Hn).
    replace (test_step (Some (p, ev)) batch) with (Some (p, ev1))
      by (unfold test_step; cbn [mbind option_bind]; by rewrite E).
    destruct (IH ev1) as (ev' & E' & Hn').
    exists ev'. split; [done|]. rewrite fmap_cons. cbn [concat].
    rewrite length_app. lia.
Qed.
End Model.

(** *** numpy helpers of the MNIST script *)

Lemma astype_int_IZR (c : Z) : Np.astype_int (IZR c) = c.
Proof.
  unfold Np.astype_int. destruct (Rlt_dec (IZR c) 0).
  - apply Zceil_eq. lra.
  - apply ZfloorZ.
Qed.

Lemma chunks_concat {A} (n : nat) (M : list (list A)) :
  Forall (fun row => length row = n) M ->
  Mnist.chunks n (length M) (concat M) = M.
Proof.
  induction 1 as [|row M Hrow HM IH]; [done|].
  simpl. rewrite take_app_length' by done. rewrite drop_app_length' by done.
  by rewrite IH.
Qed.

Lemma length_concat_uniform {A} (n : nat) (M : list (list A)) :
  Forall (fun row => length row = n) M ->
  length (concat M) = (length M * n)%nat.
Proof.
  induction 1 as [|row M Hrow HM IH]; [done|].
  simpl. rewrite length_app, IH. lia.
Qed.

Lemma reshape_images_rows (X : matrix) :
  Forall (fun row => length row = 784%nat) X ->
  Mnist.reshape_images X = Some (map (Mnist.chunks 28 28) X).
Proof.
  intros HX. unfold Mnist.reshape_images.
  rewrite (length_concat_uniform 784 X HX).
  rewrite Nat.Div0.mod_mul, Nat.div_mul by done.
  rewrite Nat.eqb_refl. by rewrite chunks_concat.
Qed.

Lemma fancy_index_lookup {A} (a : list A) (idx : list nat) :
  Forall (fun i => (i < length a)%nat) idx ->
  exists a', Np.fancy_index a idx = Some a' /\ length a' = length idx /\
    forall k j, idx !! k = Some j -> a' !! k = a !! j.
Proof.
  unfold Np.fancy_index.
  induction 1 as [|i idx Hi Hidx IH].
  - exists []. split; [done|]. split; [done|]. intros k j Hk. by rewrite lookup_nil in Hk.
  - destruct IH as (a' & E & Hlen & Hlook).
    destruct (lookup_lt_is_Some_2 a i Hi) as [x Hx].
    exists (x :: a'). split; [|split].
    + apply mapM_Some. constructor; [done|]. by apply mapM_Some.
    + simpl. by rewrite Hlen.
    + intros [|k] j Hk; simpl in *.
      * injection Hk as <-. done.
      * by apply Hlook.
Qed.

Section FetchMnist.
Context `{Numpy}.
Import Mnist.

Lemma one_hot_labels_eq (Y : list Z) :
  Forall (fun c => 0 <= c < 10) Y ->
  one_hot_labels Y = Some (map (Sparse.one_hot 10) Y).
Proof.
  intros HY. unfold one_hot_labels. rewrite csr_one_hot.
  by rewrite (proj2 (forallb_in_bounds 10 Y)).
Qed.

Lemma shuffle_lookup {A B} (X : list A) (Y : list B) (s : rng_state) :
  length X = length Y ->
  exists X' Y',
    shuffle X Y s = Some ((X', Y'), (permutation (length X) s).2) /\
    length X' = length X /\ length Y' = length X /\
    forall k j, (permutation (length X) s).1 !! k = Some j ->
      X' !! k = X !! j /\ Y' !! k = Y !! j.
Proof.
  intros Hlen. unfold shuffle. rewrite <- Hlen, Nat.eqb_refl. simpl.
  pose proof (permutation_perm (length X) s) as Hperm.
  destruct (permutation (length X) s) as [idx s'] eqn:E. simpl in *.
  assert (Hidx : Forall (fun i => (i < length X)%nat) idx).
  { apply Forall_forall. intros i Hi.
    rewrite Hperm in Hi. apply elem_of_seq in Hi. lia. }
  destruct (fancy_index_lookup X idx Hidx) as (X' & -> & HX' & HlX).
  rewrite Hlen in Hidx.
  destruct (fancy_index_lookup Y idx Hidx) as (Y' & -> & HY' & HlY).
  simpl. exists X', Y'. split; [done|].
  apply Permutation_length in Hperm. rewrite length_seq in Hperm.
  split; [lia|]. split; [lia|]. intros k j Hk. split; eauto.
Qed.

Lemma fetch_mnist_returns (mnist : bunch) (ambient : rng_state) :
  length (data mnist) = length (target mnist) ->
  Forall (fun row => length row = 784%nat) (data mnist) ->
  Forall (fun t => 0 <= Np.astype_int t < 10) (target mnist) ->
  let n := length (data mnist) in
  let ntr := (Z.to_nat 60000 `min` n)%nat in
  let draw := permutation ntr (seed_state 0) in
  exists Xtr Ytr Xte Yte,
    fetch_mnist mnist ambient = Some ((Xtr, Ytr, Xte, Yte), draw.2) /\
    length Xtr = ntr /\ length Ytr = ntr /\
    length Xte = (n - ntr)%nat /\ length Yte = (n - ntr)%nat /\
    (forall k j : nat, draw.1 !! k = Some j ->
       (j < ntr)%nat /\
       Xtr !! k = prepare_image <$> data mnist !! j /\
       Ytr !! k = prepare_label <$> target mnist !! j) /\
    (forall k : nat,
       Xte !! k = prepare_image <$> data mnist !! (Z.to_nat 60000 + k)%nat /\
       Yte !! k = prepare_label <$> target mnist !! (Z.to_nat 60000 + k)%nat).
Proof.
  intros Hlen Hrows Hlabels n ntr draw. unfold fetch_mnist.
  set (X := map (map (fun v => (IZR v / 255)%R)) (data mnist)).
  set (T := Z.to_nat 60000) in *.
  assert (HX : Forall (fun row => length row = 784%nat) X).
  { apply Forall_fmap. eapply Forall_impl; [exact Hrows|].
    intros row Hrow. simpl. by rewrite length_map. }
  assert (HlenX : length X = n) by (unfold X; by rewrite length_map).
  rewrite !slice_prefix, !slice_suffix by lia. fold T.
  rewrite (reshape_images_rows (take T X)) by (by apply Forall_take).
  rewrite (reshape_images_rows (drop T X)) by (by apply Forall_drop).
  cbn [mbind option_bind].
  set (Xtr0 := map (chunks 28 28) (take T X)).
  set (Ytr0 := map Np.astype_int (take T (target mnist))).
  assert (HXtr0 : length Xtr0 = ntr).
  { unfold Xtr0. rewrite length_map, length_take. lia. }
  assert (HYtr0 : length Ytr0 = ntr).
  { unfold Ytr0. rewrite length_map, length_take. lia. }
  destruct (shuffle_lookup Xtr0 Ytr0 (Np.random_seed 0 ambient) ltac:(lia))
    as (X' & Y' & -> & HX' & HY' & Hlook).
  cbn [mbind option_bind]. unfold Np.random_seed in *. rewrite HXtr0 in *.
  fold draw in Hlook |- *.
  assert (HY'range : Forall (fun c => 0 <= c < 10) Y').
  { apply Forall_lookup. intros k c Hk.
    assert (Hkl : (k < length draw.1)%nat).
    { pose proof (permutation_perm ntr (seed_state 0)) as Hp.
      apply Permutation_length in Hp. rewrite length_seq in Hp.
      apply lookup_lt_Some in Hk. unfold draw. lia. }
    destruct (lookup_lt_is_Some_2 _ _ Hkl) as [j Hj].
    destruct (Hlook k j Hj) as [_ HYk]. rewrite Hk in HYk. symmetry in HYk.
    unfold Ytr0 in HYk. rewrite list_lookup_fmap in HYk.
    destruct (take T (target mnist) !! j) as [t|] eqn:Ht; [|done].
    injection HYk as <-. apply lookup_take_Some in Ht as [Ht _].
    by eapply Forall_lookup_1 in Hlabels. }
  rewrite (one_hot_labels_eq Y' HY'range). cbn [mbind option_bind].
  rewrite one_hot_labels_eq.
  2:{ apply Forall_fmap, Forall_drop. exact Hlabels. }
  cbn [mbind option_bind].
  eexists _, _, _, _. split; [reflexivity|].
  split; [by rewrite length_map; lia|].
  split; [by rewrite length_map; lia|].
  split; [rewrite !length_map, length_drop; lia|].
  split; [rewrite !length_map, length_drop; lia|].
  split.
  - intros k j Hj.
    assert (Hjn : (j < ntr)%nat).
    { pose proof (permutation_perm ntr (seed_state 0)) as Hp.
      apply list_elem_of_lookup_2 in Hj. fold draw in Hp.
      rewrite Hp in Hj. apply elem_of_seq in Hj. lia. }
    split; [done|].
    destruct (Hlook k j Hj) as [HXk HYk].
    rewrite !list_lookup_fmap, HXk, HYk. unfold Xtr0, Ytr0, X.
    rewrite !list_lookup_fmap, <- fmap_take, !list_lookup_fmap.
    rewrite !lookup_take_lt by lia.
    split.
    + destruct (data mnist !! j); done.
    + destruct (target mnist !! j); done.
  - intros k. rewrite !list_lookup_fmap, !lookup_drop. unfold X.
    rewrite !list_lookup_fmap. split.
    + destruct (data mnist !! (T + k)%nat); done.
    + destruct (target mnist !! (T + k)%nat); done.
Qed.
End FetchMnist.

Lemma one_hot_labels_inv (Y : list Z) (M : matrix) :
  Mnist.one_hot_labels Y = Some M ->
  Forall (fun c => 0 <= c < 10) Y /\ M = map (Sparse.one_hot 10) Y.
Proof.
  unfold Mnist.one_hot_labels. rewrite csr_one_hot.
  destruct (forallb (Sparse.in_bounds 10) Y) eqn:E; [|done].
  intros [= <-]. split; [|done]. by apply (forallb_in_bounds 10).
Qed.

Lemma one_hot_labels_valid (Y : list Z) (M : matrix) :
  Mnist.one_hot_labels Y = Some M ->
  Forall Sparse.valid_one_hot M /\ Forall (fun row => length row = 10%nat) M.
Proof.
  intros HM. apply one_hot_labels_inv in HM as [HY ->]. split.
  - apply Forall_fmap. eapply Forall_impl; [exact HY|].
    intros c Hc. by apply (one_hot_valid 10).
  - apply Forall_fmap, Forall_true. intros c. apply one_hot_length.
Qed.

Section FetchLabels.
Context `{Numpy}.

Lemma fetch_mnist_labels (mnist : Mnist.bunch) (ambient : rng_state)
    (Xtr : Mnist.images) (Ytr : matrix) (Xte : Mnist.images) (Yte : matrix)
    (s : rng_state) :
  Mnist.fetch_mnist mnist ambient = Some ((Xtr, Ytr, Xte, Yte), s) ->
  Forall Sparse.valid_one_hot Ytr /\ Forall Sparse.valid_one_hot Yte.
Proof.
  unfold Mnist.fetch_mnist. intros Hf.
  apply bind_Some in Hf as (X1 & _ & Hf).
  apply bind_Some in Hf as (X2 & _ & Hf).
  apply bind_Some in Hf as ([[X' Y'] s1] & _ & Hf).
  apply bind_Some in Hf as (Y1 & HY1 & Hf).
  apply bind_Some in Hf as (Y2 & HY2 & Hf).
  injection Hf as <- <- <- <- <-.
  split; [by apply one_hot_labels_valid in HY1 as [? _]
         |by apply one_hot_labels_valid in HY2 as [? _]].
Qed.
End FetchLabels.

Section TestLoop.
Import LogisticRegression.

Lemma blocks_valid (X Y : matrix) (M c : nat) :
  Forall (fun x => length x = input_dim) X ->
  Forall (fun y => y <> []) Y ->
  length X = length Y ->
  Forall valid_batch
    (map (fun k : nat => (take M (drop (k * M) X), take M (drop (k * M) Y))) (seq 0 c)).
Proof.
  intros HX HY Hlen. apply Forall_fmap, Forall_true. intros k.
  split; [|split]; simpl.
  - by apply Forall_take, Forall_drop.
  - by apply Forall_take, Forall_drop.
  - rewrite !length_take, !length_drop. lia.
Qed.

Lemma test_read_only (p : params) (X Y : matrix) :
  well_shaped p ->
  Forall (fun x => length x = input_dim) X ->
  Forall (fun y => y <> []) Y ->
  length X = length Y ->
  exists ev, test p X Y = Some (p, ev) /\ Cntk.samples_seen ev = length X.
Proof.
  intros Hp HX HY Hlen. unfold test.
  rewrite minibatch_loop_foldl.
  rewrite (minibatches_blocks X Y minibatch_size) by done.
  set (bs := map _ _).
  destruct (test_steps_params p bs Cntk.new_evaluator Hp) as (ev & E & Hn).
  { by apply blocks_valid. }
  exists ev. simpl. split; [done|].
  rewrite Hn. simpl. unfold bs. rewrite <- list_fmap_compose.
  unfold compose. simpl.
  change (length (concat ((fun k => take (Z.to_nat minibatch_size)
            (drop (k * Z.to_nat minibatch_size) X)) <$>
            seq 0 (Z.to_nat (Loop.num_minibatches (Py.len X) minibatch_size)))) = length X).
  rewrite concat_blocks. rewrite take_ge; [done|].
  destruct (num_minibatches_covers (Py.len X) minibatch_size) as [[? ?]|[? ?]];
    unfold Py.len in *; unfold minibatch_size in *; lia.
Qed.
End TestLoop.

(** *** The counter generator satisfies the numpy contracts *)

Lemma counter_randint_range (n : nat) (lo hi s : Z) :
  lo < hi -> Forall (fun v => lo <= v < hi) (Counter.randint n lo hi s).1.
Proof.
  intros Hlt. unfold Counter.randint. simpl.
  apply Forall_fmap, Forall_true. intros k. simpl.
  pose proof (Z.mod_pos_bound (s + Z.of_nat k) (hi - lo) ltac:(lia)). lia.
Qed.

Lemma counter_randint_length (n : nat) (lo hi s : Z) :
  length (Counter.randint n lo hi s).1 = n.
Proof. unfold Counter.randint. simpl. by rewrite length_map, length_seq. Qed.

Lemma counter_randn_rows (n d : nat) (s : Z) : length (Counter.randn n d s).1 = n.
Proof. unfold Counter.randn. simpl. by rewrite length_replicate. Qed.

Lemma counter_randn_cols (n d : nat) (s : Z) :
  Forall (fun row : vector => length row = d) (Counter.randn n d s).1.
Proof.
  unfold Counter.randn. simpl. apply Forall_replicate. by rewrite length_replicate.
Qed.

Lemma counter_permutation_perm (n : nat) (s : Z) :
  Permutation (Counter.permutation n s).1 (seq 0 n).
Proof. unfold Counter.permutation. simpl. symmetry. apply Permutation_rev. Qed.

#[export] Instance counter_numpy : Numpy := {|
  rng_state := Z;
  seed_state := fun s => s;
  randint := Counter.randint;
  randn := Counter.randn;
  permutation := Counter.permutation;
  astype_float32 := fun v => v;
  randint_length := counter_randint_length;
  randint_range := counter_randint_range;
  randn_rows := counter_randn_rows;
  randn_cols := counter_randn_cols;
  permutation_perm := counter_permutation_perm
|}.

(** *** Shapes inside the MNIST network *)

Example mnist_feature_shape :
  Cntk.Layers.Sequential (take 5 Mnist.model) Mnist.input_shape = Some [64; 3; 3]%nat.
Proof. reflexivity. Qed.

Example mnist_first_pooling_shape :
  Cntk.Layers.Sequential (take 2 Mnist.model) Mnist.input_shape = Some [32; 13; 13]%nat.
Proof. reflexivity. Qed.

(** A window larger than its input makes the construction fail. *)
Example convolution_too_large :
  Cntk.Layers.Sequential Mnist.model [4; 4]%nat = None.
Proof. reflexivity. Qed.

(** ** The claims *)

(** C1.  For a training set of [n] aligned samples and a minibatch size
    [m > 0], the training loop takes the contiguous slices [[0,m)],
    [[m,2m)], ... in order: slice [k] is [X[k*m : k*m+m]] with the labels of
    the same rows, the [n / m] first slices have exactly [m] samples and,
    when [m] does not divide [n], one last slice holds the [n mod m]
    remaining samples, unpadded.  The slices put end to end give back the
    training set, so every sample is presented once per pass, and the loop
    makes exactly one update per slice, in that order. *)
Theorem C1_training_slices {sample label state}
    (step : state -> list sample * list label -> state)
    (X : list sample) (Y : list label) (m : Z) (st : state) :
  0 < m -> length Y = length X ->
  let n := Py.len X in
  exists bs,
    Loop.minibatches X Y m = Some bs /\
    Loop.minibatch_loop step X Y m st = Some (foldl step st bs) /\
    Z.of_nat (length bs) = n / m + (if n mod m =? 0 then 0 else 1) /\
    (forall k : nat, (k < length bs)%nat ->
       bs !! k = Some (Py.slice X (Z.of_nat k * m) (Z.of_nat k * m + m),
                       Py.slice Y (Z.of_nat k * m) (Z.of_nat k * m + m))) /\
    (forall (k : nat) x y, bs !! k = Some (x, y) ->
       length x = length y /\
       Py.len x = if decide (Z.of_nat k < n / m) then m else n mod m) /\
    concat bs.*1 = X /\ concat bs.*2 = Y.
Proof. apply minibatches_cover. Qed.

Lemma C1_training_slices_witness :
  exists bs,
    Loop.minibatches [10; 11; 12; 13; 14] [true; false; true; true; false] 2 = Some bs /\
    Loop.minibatch_loop (fun (seen : list (list Z * list bool)) b => seen ++ [b])
      [10; 11; 12; 13; 14] [true; false; true; true; false] 2 [] =
      Some [([10; 11], [true; false]); ([12; 13], [true; true]); ([14], [false])].
Proof.
  destruct (C1_training_slices
              (fun (seen : list (list Z * list bool)) b => seen ++ [b])
              [10; 11; 12; 13; 14] [true; false; true; true; false] 2 [])
    as (bs & Hbs & Hloop & _); [lia|reflexivity|].
  exists bs. split; [exact Hbs|]. reflexivity.
Defined.

(** C2.  The evaluation pass over the held-out set leaves the model
    parameters as they were: the test loop ends with the parameters it
    started from, every call of the evaluator returns the parameters
    unchanged, and two calls on the same batch with the same parameters
    return the same metric. *)
Theorem C2_evaluation_read_only (p : LogisticRegression.params)
    (ev : Cntk.evaluator) (X Y : matrix) :
  LogisticRegression.well_shaped p ->
  Forall (fun x => length x = LogisticRegression.input_dim) X ->
  Forall (fun y => y <> []) Y ->
  length X = length Y ->
  (exists ev', LogisticRegression.test p X Y = Some (p, ev')) /\
  (exists m ev1 ev2,
     LogisticRegression.test_minibatch (p, ev) (X, Y) = Some (m, (p, ev1)) /\
     LogisticRegression.test_minibatch (p, ev1) (X, Y) = Some (m, (p, ev2))) /\
  (forall batch m w,
     LogisticRegression.test_minibatch (p, ev) batch = Some (m, w) -> w.1 = p).
Proof.
  intros Hp HX HY Hlen. split; [|split].
  - destruct (test_read_only p X Y Hp HX HY Hlen) as (ev' & E & _). eauto.
  - assert (Hb : LogisticRegression.valid_batch (X, Y)) by done.
    destruct (test_minibatch_returns p ev (X, Y) Hp Hb) as (m & ev1 & E1 & Hm & _).
    destruct (test_minibatch_returns p ev1 (X, Y) Hp Hb) as (m' & ev2 & E2 & Hm' & _).
    assert (m' = m) as -> by congruence.
    by exists m, ev1, ev2.
  - intros batch m w E. by apply test_minibatch_params in E as (_ & ? & _).
Qed.

Lemma C2_evaluation_read_only_witness :
  exists ev',
    LogisticRegression.test
      identity_params
      [[1; 2]; [3; 1]]%R [[0; 1]; [1; 0]]%R =
    Some (identity_params, ev').
Proof.
  refine (proj1 (C2_evaluation_read_only
            identity_params
            Cntk.new_evaluator [[1; 2]; [3; 1]]%R [[0; 1]; [1; 0]]%R _ _ _ _)).
  - repeat split; repeat constructor.
  - repeat constructor.
  - repeat constructor; discriminate.
  - reflexivity.
Defined.

(** C3.  With the generator seeded by [np.random.seed(0)] at module load,
    the arrays [X_train], [Y_train], [X_test], [Y_test], [X_check] and
    [Y_check] do not depend on the state the generator had when the run
    began: two runs of the script build the same arrays, and the script does
    build them. *)
Theorem C3_seeded_data_deterministic `{Numpy} (ambient1 ambient2 : rng_state) :
  LogisticRegression.script_data ambient1 = LogisticRegression.script_data ambient2 /\
  exists d, LogisticRegression.script_data ambient1 = Some d.
Proof.
  split; [apply script_data_seeded|].
  destruct (script_data_returns ambient1) as (d & E & _). eauto.
Qed.

(** C4.  Every label row the data generators produce is a valid one-hot
    encoding: exactly one entry is 1, all others are 0, and the row adds up
    to 1.  [generate_synthetic_data] always produces such rows, and so does
    [fetch_mnist] whenever it returns. *)
Theorem C4_labels_one_hot `{Numpy} (N : nat) (s : rng_state)
    (mnist : Mnist.bunch) (ambient : rng_state)
    (Xtr : Mnist.images) (Ytr : matrix) (Xte : Mnist.images) (Yte : matrix)
    (s' : rng_state) :
  Mnist.fetch_mnist mnist ambient = Some ((Xtr, Ytr, Xte, Yte), s') ->
  (exists X Y s1,
     LogisticRegression.generate_synthetic_data N s = Some ((X, Y), s1) /\
     Forall Sparse.valid_one_hot Y) /\
  Forall Sparse.valid_one_hot Ytr /\ Forall Sparse.valid_one_hot Yte.
Proof.
  intros Hf. split.
  - destruct (generate_synthetic_data_rows N s)
      as (X & Y & s1 & E & _ & _ & _ & _ & Hvalid & _).
    by exists X, Y, s1.
  - by eapply fetch_mnist_labels.
Qed.

Lemma two_digits_well_formed :
  length (Mnist.data two_digits) = length (Mnist.target two_digits) /\
  Forall (fun row => length row = 784%nat) (Mnist.data two_digits) /\
  Forall (fun t => 0 <= Np.astype_int t < 10) (Mnist.target two_digits).
Proof.
  split; [reflexivity|]. split.
  - repeat constructor; apply length_replicate.
  - repeat constructor; rewrite astype_int_IZR; lia.
Qed.

Lemma C4_labels_one_hot_witness :
  exists Ytr Yte : matrix,
    Forall Sparse.valid_one_hot Ytr /\ Forall Sparse.valid_one_hot Yte /\
    length Ytr = 2%nat /\ length Yte = 0%nat.
Proof.
  destruct two_digits_well_formed as (H1 & H2 & H3).
  destruct (fetch_mnist_returns (H := counter_numpy) two_digits 0 H1 H2 H3)
    as (Xtr & Ytr & Xte & Yte & E & _ & HnY & _ & HnYe & _).
  exists Ytr, Yte.
  destruct (C4_labels_one_hot (H := counter_numpy) 3 0 two_digits 0 Xtr Ytr Xte Yte _ E)
    as (_ & Htr & Hte).
  split; [exact Htr|]. split; [exact Hte|]. split; [exact HnY|exact HnYe].
Defined.

(** C5.  [generate_synthetic_data(N)] returns exactly [N] samples: a
    feature matrix of [N] rows of [input_dim] single-precision values and a
    label matrix of [N] rows of [num_classes] entries.  Row [i] of the
    features is labelled by row [i] of the labels: with [c] the [i]-th class
    that [randint] drew and [row] the [i]-th row that [randn] drew, row [i]
    of the labels is the one-hot row of [c], and row [i] of the features is
    [row] shifted by 3, scaled by [c + 1] and rounded to single precision. *)
Theorem C5_generate_synthetic_data_rows `{Numpy} (N : nat) (s : rng_state) :
  let draw := randint N 0 (Z.of_nat LogisticRegression.num_classes) s in
  let classes := draw.1 in
  let noise := (randn N LogisticRegression.input_dim draw.2).1 in
  exists X Y s',
    LogisticRegression.generate_synthetic_data N s = Some ((X, Y), s') /\
    length X = N /\
    Forall (fun row => length row = LogisticRegression.input_dim) X /\
    length Y = N /\
    Forall (fun row => length row = LogisticRegression.num_classes) Y /\
    forall i : nat, (i < N)%nat ->
      exists (c : Z) (row : vector),
        classes !! i = Some c /\ noise !! i = Some row /\
        0 <= c < Z.of_nat LogisticRegression.num_classes /\
        length row = LogisticRegression.input_dim /\
        Y !! i = Some (Sparse.one_hot LogisticRegression.num_classes c) /\
        X !! i = Some (map (fun v => astype_float32 ((v + 3) * IZR (c + 1))) row).
Proof.
  intros draw classes noise.
  pose proof (generate_synthetic_data_eq N s) as Heq. cbv zeta in Heq.
  fold draw in Heq. fold classes noise in Heq.
  pose proof (randint_length N 0 (Z.of_nat LogisticRegression.num_classes) s) as Hlen.
  pose proof (randint_range N 0 (Z.of_nat LogisticRegression.num_classes) s ltac:(done))
    as Hrange.
  pose proof (randn_rows N LogisticRegression.input_dim draw.2) as Hrows.
  pose proof (randn_cols N LogisticRegression.input_dim draw.2) as Hcols.
  fold draw in Hlen, Hrange. fold classes in Hlen, Hrange. fold noise in Hrows, Hcols.
  destruct (generate_synthetic_data_rows N s)
    as (X & Y & s' & E & HX & HXr & HY & HYr & _ & _).
  rewrite E in Heq.
  assert (HXeq : X = zip_with
            (fun row y => map (fun v => astype_float32 ((v + 3) * IZR (y + 1))) row)
            noise classes) by congruence.
  assert (HYeq : Y = map (Sparse.one_hot LogisticRegression.num_classes) classes)
    by congruence.
  exists X, Y, s'. split; [exact E|].
  split; [exact HX|]. split; [exact HXr|]. split; [exact HY|]. split; [exact HYr|].
  intros i Hi.
  destruct (lookup_lt_is_Some_2 classes i ltac:(lia)) as [c Hc].
  destruct (lookup_lt_is_Some_2 noise i ltac:(lia)) as [row Hrow].
  exists c, row. split; [exact Hc|]. split; [exact Hrow|].
  split; [by eapply Forall_lookup_1 in Hrange|].
  split; [by eapply Forall_lookup_1 in Hcols|].
  split.
  - by rewrite HYeq, list_lookup_fmap, Hc.
  - rewrite HXeq, lookup_zip_with, Hrow. simpl. by rewrite Hc.
Qed.

(** C6.  For every batch of feature rows and every value of the parameters,
    [get_probability] returns one probability distribution per sample: as
    many entries as classes, each between 0 and 1, adding up to 1.  This
    holds for the logistic-regression model and for the softmax of the ten
    scores of the MNIST network; the result is a function of the features
    and the parameters alone. *)
Theorem C6_get_probability_distribution (p : LogisticRegression.params)
    (X : matrix) {tensor : Type} (net : tensor -> option vector) (x : tensor)
    (z : vector) :
  LogisticRegression.well_shaped p ->
  Forall (fun row => length row = LogisticRegression.input_dim) X ->
  net x = Some z -> length z = Mnist.num_classes ->
  (exists P, LogisticRegression.get_probability p X = Some P /\
     length P = length X /\
     Forall (Cntk.is_distribution LogisticRegression.num_classes) P) /\
  (exists q, Mnist.get_probability net x = Some q /\
     Cntk.is_distribution Mnist.num_classes q).
Proof.
  intros Hp HX Hnet Hz. split.
  - by apply get_probability_distribution.
  - unfold Mnist.get_probability. rewrite Hnet. simpl.
    eexists. split; [done|]. rewrite <- Hz. apply softmax_distribution.
    intros ->. done.
Qed.

Lemma C6_get_probability_distribution_witness :
  (exists P,
     LogisticRegression.get_probability
       identity_params
       [[1; 2]; [3; 1]]%R = Some P /\
     length P = 2%nat /\
     Forall (Cntk.is_distribution LogisticRegression.num_classes) P) /\
  (exists q, Mnist.get_probability (fun _ : unit => Some (replicate 10 0%R)) () = Some q /\
     Cntk.is_distribution Mnist.num_classes q).
Proof.
  refine (C6_get_probability_distribution
            identity_params
            [[1; 2]; [3; 1]]%R (fun _ : unit => Some (replicate 10 0%R)) ()
            (replicate 10 0%R) _ _ _ _).
  - repeat split; repeat constructor.
  - repeat constructor.
  - reflexivity.
  - reflexivity.
Defined.

(** C7.  For every valid input batch the model outputs one row of
    [num_classes] scores per sample: shape [(batch_size, 2)] for
    [times(data, W) + b], and shape [(batch_size, 10)] for the MNIST network,
    whose last layer is [Dense(num_classes)]. *)
Theorem C7_model_output_shape (p : LogisticRegression.params) (X : matrix)
    (batch_size : nat) :
  LogisticRegression.well_shaped p ->
  Forall (fun row => length row = LogisticRegression.input_dim) X ->
  (exists S, LogisticRegression.model p X = Some S /\
     length S = length X /\
     Forall (fun row => length row = 2%nat) S) /\
  Cntk.Layers.batch_shape Mnist.model (batch_size :: Mnist.input_shape) =
    Some [batch_size; 10%nat].
Proof.
  intros Hp HX. split; [by apply model_shape|reflexivity].
Qed.

Lemma C7_model_output_shape_witness :
  (exists S,
     LogisticRegression.model
       identity_params
       [[1; 2]; [3; 1]; [0; 0]]%R = Some S /\
     length S = 3%nat /\ Forall (fun row => length row = 2%nat) S) /\
  Cntk.Layers.batch_shape Mnist.model (64%nat :: Mnist.input_shape) = Some [64; 10]%nat.
Proof.
  refine (C7_model_output_shape
            identity_params
            [[1; 2]; [3; 1]; [0; 0]]%R 64 _ _).
  - repeat split; repeat constructor.
  - repeat constructor.
Defined.

(** C8.  The feature rows and the label rows of a minibatch are equally
    many: for arrays of equal length and any slice index [i], the slices
    [X[i:i+minibatch_size]] and [Y[i:i+minibatch_size]] have the same number
    of rows, and so has every minibatch the loops pass to the trainer or to
    the evaluator. *)
Theorem C8_minibatch_rows_match {sample label} (X : list sample) (Y : list label)
    (i minibatch_size : Z) :
  length X = length Y ->
  length (Py.slice X i (i + minibatch_size)) =
  length (Py.slice Y i (i + minibatch_size)) /\
  forall bs, Loop.minibatches X Y minibatch_size = Some bs ->
    Forall (fun batch => length batch.1 = length batch.2) bs.
Proof.
  intros Hlen.
  assert (Hslice : forall a b, length (Py.slice X a b) = length (Py.slice Y a b)).
  { intros a b. rewrite !slice_length. unfold Py.len. by rewrite Hlen. }
  split; [apply Hslice|].
  intros bs Hbs. unfold Loop.minibatches in Hbs.
  apply bind_Some in Hbs as (ixs & _ & [= <-]).
  apply Forall_fmap, Forall_true. intros j. apply Hslice.
Qed.

Lemma C8_minibatch_rows_match_witness :
  length (Py.slice [10; 11; 12; 13; 14] 4 (4 + 2)) =
  length (Py.slice [true; false; true; true; false] 4 (4 + 2)).
Proof.
  exact (proj1 (C8_minibatch_rows_match [10; 11; 12; 13; 14]
                  [true; false; true; true; false] 4 2 eq_refl)).
Defined.



(** C10.  [fetch_mnist] splits the corpus into the first 60000 samples, for
    training, and all the remaining ones, for testing, so that no sample is
    in both.  The training samples are reordered by one permutation, drawn
    after [np.random.seed(0)] and applied to images and labels alike: the
    training sample at position [k] is the image and the label of one and
    the same corpus row [j < 60000].  The test samples keep the order of the
    corpus, image and label of row [60000 + k] at position [k]. *)
Theorem C10_fetch_mnist_partition `{Numpy} (mnist : Mnist.bunch)
    (ambient : rng_state) :
  length (Mnist.data mnist) = length (Mnist.target mnist) ->
  Forall (fun row => length row = 784%nat) (Mnist.data mnist) ->
  Forall (fun t => 0 <= Np.astype_int t < 10) (Mnist.target mnist) ->
  let n := length (Mnist.data mnist) in
  let ntr := (Z.to_nat 60000 `min` n)%nat in
  let draw := permutation ntr (seed_state 0) in
  exists Xtr Ytr Xte Yte,
    Mnist.fetch_mnist mnist ambient = Some ((Xtr, Ytr, Xte, Yte), draw.2) /\
    Permutation draw.1 (seq 0 ntr) /\
    length Xtr = ntr /\ length Ytr = ntr /\
    length Xte = (n - ntr)%nat /\ length Yte = (n - ntr)%nat /\
    (forall k j : nat, draw.1 !! k = Some j ->
       (j < ntr)%nat /\
       Xtr !! k = Mnist.prepare_image <$> Mnist.data mnist !! j /\
       Ytr !! k = Mnist.prepare_label <$> Mnist.target mnist !! j) /\
    (forall k : nat,
       Xte !! k = Mnist.prepare_image <$> Mnist.data mnist !! (Z.to_nat 60000 + k)%nat /\
       Yte !! k = Mnist.prepare_label <$> Mnist.target mnist !! (Z.to_nat 60000 + k)%nat).
Proof.
  intros Hlen Hrows Hlabels n ntr draw.
  destruct (fetch_mnist_returns mnist ambient Hlen Hrows Hlabels)
    as (Xtr & Ytr & Xte & Yte & E & H1 & H2 & H3 & H4 & Htr & Hte).
  exists Xtr, Ytr, Xte, Yte.
  split; [exact E|]. split; [apply permutation_perm|]. done.
Qed.

Lemma C10_fetch_mnist_partition_witness :
  exists Xtr Ytr Xte Yte s,
    Mnist.fetch_mnist (H := counter_numpy) two_digits 5 = Some ((Xtr, Ytr, Xte, Yte), s) /\
    length Xtr = 2%nat /\ length Xte = 0%nat.
Proof.
  destruct two_digits_well_formed as (H1 & H2 & H3).
  destruct (C10_fetch_mnist_partition (H := counter_numpy) two_digits 5 H1 H2 H3)
    as (Xtr & Ytr & Xte & Yte & E & _ & HX & _ & HXe & _).
  exists Xtr, Ytr, Xte, Yte. eexists. split; [exact E|]. split; [exact HX|exact HXe].
Defined.

(** * Further properties of the scripts *)

(** ** Edge cases of the minibatch loops *)

(** X1.  With a positive minibatch size no minibatch handed to the trainer
    or the evaluator is empty, none has more than [minibatch_size] rows, and
    each one is a run of consecutive rows of the data. *)
Theorem X1_minibatches_segments {sample label} (X : list sample) (Y : list label)
    (m : Z) (bs : list (list sample * list label)) :
  0 < m -> Loop.minibatches X Y m = Some bs ->
  Forall (fun batch =>
            (1 <= length batch.1 <= Z.to_nat m)%nat /\
            exists pre post, X = pre ++ batch.1 ++ post) bs.
Proof.
  intros Hm Hbs. rewrite minibatches_blocks in Hbs by done.
  injection Hbs as <-. apply Forall_fmap, Forall_forall. intros k Hk. simpl.
  apply elem_of_seq in Hk.
  set (M := Z.to_nat m) in *.
  assert (HkM : (k * M < length X)%nat).
  { destruct (num_minibatches_covers (Py.len X) m) as [[_ Hlast]|[_ Hzero]];
      [unfold Py.len; lia|done| |]; unfold Py.len in *.
    - assert (Z.of_nat k <= Loop.num_minibatches (Z.of_nat (length X)) m - 1) by lia.
      assert (Z.of_nat M = m) by (unfold M; lia). nia.
    - lia. }
  split.
  - rewrite length_take, length_drop. unfold M in *. lia.
  - exists (take (k * M) X), (drop M (drop (k * M) X)).
    by rewrite take_drop, take_drop.
Qed.

Lemma X1_minibatches_segments_witness :
  Forall (fun batch : list Z * list bool =>
            (1 <= length batch.1 <= Z.to_nat 2)%nat /\
            exists pre post, [10; 11; 12; 13; 14] = pre ++ batch.1 ++ post)
         [([10; 11], [true; false]); ([12; 13], [true; true]); ([14], [false])].
Proof.
  apply (X1_minibatches_segments [10; 11; 12; 13; 14]
           [true; false; true; true; false] 2); [lia|reflexivity].
Defined.

(** X2.  Over an empty data set the loop body never runs: the state of the
    trainer (or evaluator) is returned as it was, for every minibatch size
    other than zero. *)
Theorem X2_loop_on_empty_data {sample label state}
    (step : state -> list sample * list label -> state)
    (Y : list label) (m : Z) (st : state) :
  m <> 0 -> Loop.minibatch_loop step [] Y m st = Some st.
Proof.
  intros Hm. unfold Loop.minibatch_loop, Py.range, Py.range_len, Py.len.
  destruct (Z.eqb_spec m 0); [done|]. simpl.
  by destruct (0 <? m).
Qed.

Lemma X2_loop_on_empty_data_witness :
  Loop.minibatch_loop (fun (n : nat) (_ : list Z * list bool) => S n)
    [] [true] 25 0%nat = Some 0%nat.
Proof.
  apply (X2_loop_on_empty_data (fun (n : nat) (_ : list Z * list bool) => S n)
           [true] 25 0%nat). lia.
Defined.

(** X3.  A minibatch size that is not positive never trains: with size zero
    [range] raises before the first iteration, and with a negative size the
    range is empty, so the loop ends at once and returns the state it was
    given, without an error. *)
Theorem X3_loop_nonpositive_size {sample label state}
    (step : state -> list sample * list label -> state)
    (X : list sample) (Y : list label) (m : Z) (st : state) :
  m <= 0 ->
  Loop.minibatch_loop step X Y m st = if m =? 0 then None else Some st.
Proof.
  intros Hm. unfold Loop.minibatch_loop, Py.range, Py.range_len, Py.len.
  destruct (Z.eqb_spec m 0); [done|].
  destruct (Z.ltb_spec 0 m); [lia|].
  by destruct (Z.ltb_spec (Z.of_nat (length X)) 0); [lia|].
Qed.

Lemma X3_loop_nonpositive_size_witness :
  Loop.minibatch_loop (fun (n : nat) (_ : list Z * list bool) => S n)
    [1; 2; 3] [true; false; true] (-25) 0%nat = Some 0%nat.
Proof.
  apply (X3_loop_nonpositive_size (fun (n : nat) (_ : list Z * list bool) => S n)
           [1; 2; 3] [true; false; true] (-25) 0%nat). lia.
Defined.

(** X4.  When the minibatch size is at least the number of samples, and
    there is at least one sample, the loop runs once, on the whole data set:
    all the feature rows, with the first [minibatch_size] label rows. *)
Theorem X4_single_minibatch {sample label} (X : list sample) (Y : list label)
    (m : Z) :
  X <> [] -> Py.len X <= m ->
  Loop.minibatches X Y m = Some [(X, take (Z.to_nat m) Y)].
Proof.
  intros HX Hm.
  assert (Hn : 0 < Py.len X).
  { unfold Py.len. destruct X; [done|]. simpl. lia. }
  rewrite minibatches_blocks by lia.
  assert (Hc : Loop.num_minibatches (Py.len X) m = 1).
  { unfold Loop.num_minibatches.
    destruct (Z.eq_dec (Py.len X) m) as [->|Hne].
    - rewrite Z_div_same_full, Z_mod_same_full by lia. done.
    - rewrite Z.div_small, Z.mod_small by lia.
      destruct (Z.eqb_spec (Py.len X) 0); lia. }
  rewrite Hc. simpl. rewrite !drop_0. do 3 f_equal.
  apply take_ge. unfold Py.len in *. lia.
Qed.

Lemma X4_single_minibatch_witness :
  Loop.minibatches [10; 11; 12] [true; false; true] 25 =
  Some [([10; 11; 12], [true; false; true])].
Proof.
  apply (X4_single_minibatch [10; 11; 12] [true; false; true] 25); [done|].
  unfold Py.len. simpl. lia.
Defined.

(** ** Slices with a step *)

Example slice_step_forward : Py.slice_step [1; 2; 3; 4; 5] 0 10 2 = Some [1; 3; 5].
Proof. reflexivity. Qed.

Example slice_step_backward : Py.slice_step [1; 2; 3; 4; 5] 4 (-6) (-2) = Some [5; 3; 1].
Proof. reflexivity. Qed.

(** The positions an extended slice reads lie inside the sequence. *)
Lemma slice_step_positions (n a b step : Z) (k : nat) :
  0 <= n -> step <> 0 ->
  let lo := if 0 <? step then Py.adjust_index a n else Py.adjust_index_back a n in
  let hi := if 0 <? step then Py.adjust_index b n else Py.adjust_index_back b n in
  Z.of_nat k < Py.range_len lo hi step ->
  0 <= lo + Z.of_nat k * step < n.
Proof.
  intros Hn Hstep lo hi Hk. subst lo hi.
  unfold Py.range_len, Py.adjust_index, Py.adjust_index_back in *.
  destruct (Z.ltb_spec 0 step) as [Hpos|Hneg].
  - set (lo := if a <? 0 then _ else _) in *.
    set (hi := if b <? 0 then _ else _) in *.
    assert (0 <= lo <= n) by (subst lo; destruct (Z.ltb_spec a 0); lia).
    assert (0 <= hi <= n) by (subst hi; destruct (Z.ltb_spec b 0); lia).
    destruct (Z.ltb_spec lo hi); [|lia].
    assert (Z.of_nat k <= (hi - lo - 1) / step) by lia.
    pose proof (Z.mul_div_le (hi - lo - 1) step Hpos).
    assert (Z.of_nat k * step <= step * ((hi - lo - 1) / step)) by nia.
    lia.
  - set (lo := if a <? 0 then _ else _) in *.
    set (hi := if b <? 0 then _ else _) in *.
    assert (-1 <= lo <= n - 1) by (subst lo; destruct (Z.ltb_spec a 0); lia).
    assert (-1 <= hi <= n - 1) by (subst hi; destruct (Z.ltb_spec b 0); lia).
    destruct (Z.ltb_spec hi lo); [|lia].
    assert (Z.of_nat k <= (lo - hi - 1) / (- step)) by lia.
    pose proof (Z.mul_div_le (lo - hi - 1) (- step) ltac:(lia)).
    assert (Z.of_nat k * (- step) <= (- step) * ((lo - hi - 1) / (- step))) by nia.
    lia.
Qed.

Lemma slice_step_returns {A} (l : list A) (start stop step : Z) :
  step <> 0 ->
  let n := Py.len l in
  let lo := if 0 <? step then Py.adjust_index start n else Py.adjust_index_back start n in
  let hi := if 0 <? step then Py.adjust_index stop n else Py.adjust_index_back stop n in
  exists r,
    Py.slice_step l start stop step = Some r /\
    Py.len r = Py.range_len lo hi step /\
    forall k : nat, (k < length r)%nat ->
      0 <= lo + Z.of_nat k * step < n /\
      r !! k = l !! Z.to_nat (lo + Z.of_nat k * step).
Proof.
  intros Hstep n lo hi. unfold Py.slice_step.
  destruct (Z.eqb_spec step 0); [done|]. fold n lo hi.
  assert (Hcount : 0 <= Py.range_len lo hi step).
  { unfold Py.range_len.
    destruct (Z.ltb_spec 0 step).
    - destruct (lo <? hi) eqn:E; [|lia]. apply Z.ltb_lt in E.
      pose proof (Z.div_pos (hi - lo - 1) step ltac:(lia) ltac:(lia)). lia.
    - destruct (hi <? lo) eqn:E; [|lia]. apply Z.ltb_lt in E.
      pose proof (Z.div_pos (lo - hi - 1) (- step) ltac:(lia) ltac:(lia)). lia. }
  assert (Hpos : forall k : nat, Z.of_nat k < Py.range_len lo hi step ->
                 0 <= lo + Z.of_nat k * step < n).
  { intros k Hk. apply (slice_step_positions n start stop step k); [unfold n, Py.len; lia|done..]. }
  set (c := Z.to_nat (Py.range_len lo hi step)) in *.
  assert (Hall : Forall (fun k : nat =>
            is_Some (l !! Z.to_nat (lo + Z.of_nat k * step))) (seq 0 c)).
  { apply Forall_forall. intros k Hk. apply elem_of_seq in Hk.
    apply lookup_lt_is_Some_2. specialize (Hpos k ltac:(lia)).
    unfold n, Py.len in Hpos. lia. }
  destruct (mapM_is_Some_2 _ _ Hall) as [r Hr].
  exists r. split; [exact Hr|].
  pose proof (length_mapM _ _ _ Hr) as Hlen. rewrite length_seq in Hlen.
  split; [unfold Py.len; lia|].
  intros k Hk. split; [apply Hpos; lia|].
  apply mapM_Some_1 in Hr.
  destruct (lookup_lt_is_Some_2 r k Hk) as [x Hx].
  eapply Forall2_lookup_r in Hr as (k' & Hk' & Hlook); [|exact Hx].
  apply lookup_seq in Hk' as [-> _]. simpl in Hlook. by rewrite Hx, Hlook.
Qed.

(** X5.  An extended slice [l[start:stop:step]] with a non-zero step never
    fails, whatever the bounds: it returns as many items as the range from
    the clamped start to the clamped stop has, and item [k] is the element of
    [l] at position [start' + k * step], which lies inside [l]. *)
Theorem X5_slice_step_total {A} (l : list A) (start stop step : Z) :
  step <> 0 ->
  let n := Py.len l in
  let lo := if 0 <? step then Py.adjust_index start n else Py.adjust_index_back start n in
  let hi := if 0 <? step then Py.adjust_index stop n else Py.adjust_index_back stop n in
  exists r,
    Py.slice_step l start stop step = Some r /\
    Py.len r = Py.range_len lo hi step /\
    forall k : nat, (k < length r)%nat ->
      0 <= lo + Z.of_nat k * step < n /\
      r !! k = l !! Z.to_nat (lo + Z.of_nat k * step).
Proof. apply slice_step_returns. Qed.

Lemma X5_slice_step_total_witness :
  exists r, Py.slice_step [1; 2; 3; 4; 5] 4 (-6) (-2) = Some r /\ Py.len r = 3.
Proof.
  destruct (X5_slice_step_total [1; 2; 3; 4; 5] 4 (-6) (-2)) as (r & Hr & Hlen & _);
    [lia|].
  exists r. split; [exact Hr|exact Hlen].
Defined.

(** X6.  The inspected subsample [X_test[0:10000:400]]: it is always
    produced, holds every 400th test row starting with row 0 (row [k] of the
    subsample is test row [400 * k]), stops before row 10000, and so has 25
    rows as soon as the test set has at least 9601 rows.  Features and labels
    of equally long test arrays give subsamples of the same length. *)
Theorem X6_check_sample_rows {A B} (X_test : list A) (Y_test : list B) :
  length X_test = length Y_test ->
  exists X_check Y_check,
    Mnist.check_sample X_test = Some X_check /\
    Mnist.check_sample Y_test = Some Y_check /\
    length X_check = length Y_check /\
    (length X_check <= 25)%nat /\
    (9601 <= Py.len X_test -> length X_check = 25%nat) /\
    forall k : nat, (k < length X_check)%nat ->
      (400 * k < length X_test)%nat /\ 400 * Z.of_nat k < 10000 /\
      X_check !! k = X_test !! (400 * k)%nat /\
      Y_check !! k = Y_test !! (400 * k)%nat.
Proof.
  intros Hlen. unfold Mnist.check_sample.
  destruct (slice_step_returns X_test 0 10000 400 ltac:(lia)) as (Xc & HXc & HnX & HkX).
  destruct (slice_step_returns Y_test 0 10000 400 ltac:(lia)) as (Yc & HYc & HnY & HkY).
  exists Xc, Yc.
  unfold Py.len, Py.adjust_index, Py.range_len in *. simpl in *.
  rewrite <- Hlen in *.
  set (n := Z.of_nat (length X_test)) in *.
  assert (Hlo : 0 `min` n = 0) by lia. rewrite Hlo in *.
  split; [done|]. split; [done|].
  assert (HXlen : Z.of_nat (length Xc) =
           if 0 <? 10000 `min` n then (10000 `min` n - 0 - 1) / 400 + 1 else 0) by done.
  assert (Hle : Z.of_nat (length Xc) <= 25).
  { rewrite HXlen. destruct (Z.ltb_spec 0 (10000 `min` n)); [|lia].
    assert ((10000 `min` n - 0 - 1) / 400 < 25); [|lia].
    apply Z.div_lt_upper_bound; lia. }
  split; [lia|]. split; [lia|]. split.
  - intros Hbig. assert (Hmin : 10000 `min` n = 10000 \/ 9601 <= 10000 `min` n <= 10000) by lia.
    rewrite HXlen in *. destruct (Z.ltb_spec 0 (10000 `min` n)); [|lia].
    assert (24 <= (10000 `min` n - 0 - 1) / 400); [|lia].
    apply Z.div_le_lower_bound; lia.
  - intros k Hk.
    destruct (HkX k Hk) as [Hpos HX].
    destruct (HkY k ltac:(lia)) as [_ HY].
    replace (Z.to_nat (0 + Z.of_nat k * 400)) with (400 * k)%nat in * by lia.
    split; [lia|]. split; [lia|]. done.
Qed.

Lemma X6_check_sample_rows_witness :
  exists X_check Y_check,
    Mnist.check_sample [10; 11; 12] = Some X_check /\
    Mnist.check_sample [true; false; true] = Some Y_check /\
    length X_check = length Y_check.
Proof.
  destruct (X6_check_sample_rows [10; 11; 12] [true; false; true] eq_refl)
    as (Xc & Yc & HX & HY & Hlen & _).
  exists Xc, Yc. split; [exact HX|]. split; [exact HY|exact Hlen].
Defined.

(** ** Reshaping the corpus into images *)

Section Chunks.
Context {A : Type}.
Implicit Types l : list A.

Lemma chunks_length (n c : nat) l : length (Mnist.chunks n c l) = c.
Proof. revert l. induction c as [|c IH]; intros l; simpl; [done|by rewrite IH]. Qed.

Lemma chunks_full (n c : nat) l :
  (c * n <= length l)%nat ->
  Forall (fun piece => length piece = n) (Mnist.chunks n c l).
Proof.
  revert l. induction c as [|c IH]; intros l Hl; simpl.
  - constructor.
  - constructor.
    + rewrite length_take. lia.
    + apply IH. rewrite length_drop. lia.
Qed.

Lemma concat_chunks (n c : nat) l :
  concat (Mnist.chunks n c l) = take (c * n) l.
Proof.
  revert l. induction c as [|c IH]; intros l; simpl.
  - done.
  - by rewrite IH, take_take_drop.
Qed.
End Chunks.

Lemma chunk_is_image (piece : vector) :
  length piece = 784%nat -> Mnist.is_image (Mnist.chunks 28 28 piece).
Proof.
  intros Hpiece. split; [apply chunks_length|].
  apply chunks_full. change (28 * 28)%nat with 784%nat. by rewrite Hpiece.
Qed.

Lemma concat_chunk (piece : vector) :
  length piece = 784%nat -> concat (Mnist.chunks 28 28 piece) = piece.
Proof.
  intros Hpiece. rewrite concat_chunks. apply take_ge.
  change (28 * 28)%nat with 784%nat. by rewrite Hpiece.
Qed.

(** X7.  [reshape((-1,28,28))] keeps the pixels and their order: when it
    returns, every image has 28 rows of 28 pixels, there is one image per 784
    pixels of the input, and reading the images row by row gives the pixels
    of the input back in row-major order.  It fails exactly when the number
    of pixels is not a multiple of 784. *)
Theorem X7_reshape_images_round_trip (X : matrix) (imgs : Mnist.images) :
  Mnist.reshape_images X = Some imgs ->
  Forall Mnist.is_image imgs /\
  (length imgs * 784 = length (concat X))%nat /\
  concat (map (fun img => concat img) imgs) = concat X.
Proof.
  unfold Mnist.reshape_images. set (flat := concat X).
  destruct (Nat.eqb_spec (length flat mod 784) 0) as [Hmod|]; [|done].
  set (c := (length flat / 784)%nat). intros Heq.
  assert (imgs = map (Mnist.chunks 28 28) (Mnist.chunks 784 c flat)) as ->
    by congruence.
  clear Heq.
  assert (Hc : (c * 784 = length flat)%nat).
  { pose proof (Nat.div_mod_eq (length flat) 784) as Hd. rewrite Hmod in Hd.
    unfold c. rewrite Nat.mul_comm. rewrite Nat.add_0_r in Hd. by rewrite <- Hd. }
  pose proof (chunks_full 784 c flat) as Hfull.
  rewrite Hc in Hfull. specialize (Hfull (Nat.le_refl _)).
  split; [|split].
  - apply Forall_fmap. eapply Forall_impl; [exact Hfull|].
    intros piece Hpiece. exact (chunk_is_image piece Hpiece).
  - by rewrite length_map, chunks_length.
  - rewrite map_map.
    rewrite (map_ext_Forall (fun piece => concat (Mnist.chunks 28 28 piece))
               (fun piece => piece)).
    + rewrite map_id, concat_chunks. apply take_ge. by rewrite Hc.
    + eapply Forall_impl; [exact Hfull|]. intros piece Hpiece.
      exact (concat_chunk piece Hpiece).
Qed.

Lemma X7_reshape_images_round_trip_witness :
  Forall Mnist.is_image [Mnist.chunks 28 28 (replicate 784 0%R)].
Proof.
  refine (proj1 (X7_reshape_images_round_trip
                   [replicate 392 0%R; replicate 392 0%R]
                   [Mnist.chunks 28 28 (replicate 784 0%R)] _)).
  reflexivity.
Defined.

Lemma reshape_images_fails (X : matrix) :
  Mnist.reshape_images X = None <-> (length (concat X) mod 784 <> 0)%nat.
Proof.
  unfold Mnist.reshape_images.
  destruct (Nat.eqb_spec (length (concat X) mod 784) 0); split; done.
Qed.

(** ** Shuffling *)

Lemma lookup_all_positions {A} (a l : list A) :
  Forall2 (fun (i : nat) x => a !! i = Some x) (seq 0 (length a)) l -> l = a.
Proof.
  intros Hall. pose proof (Forall2_length _ _ _ Hall) as Hlen.
  rewrite length_seq in Hlen.
  apply list_eq. intros i.
  destruct (decide (i < length a)%nat) as [Hi|Hi].
  - destruct (lookup_lt_is_Some_2 l i ltac:(lia)) as [x Hx].
    eapply Forall2_lookup_r in Hall as (i' & Hi' & Hlook); [|exact Hx].
    apply lookup_seq in Hi' as [-> _]. simpl in Hlook. by rewrite Hx, Hlook.
  - rewrite !lookup_ge_None_2 by lia. done.
Qed.

Lemma fancy_index_permutation {A} (a a' : list A) (idx : list nat) :
  Permutation idx (seq 0 (length a)) ->
  Np.fancy_index a idx = Some a' -> Permutation a' a.
Proof.
  intros Hperm Hidx. unfold Np.fancy_index in Hidx. apply mapM_Some_1 in Hidx.
  destruct (Permutation_Forall2 Hperm Hidx) as (l & Hl & Hall).
  apply lookup_all_positions in Hall as ->. exact Hl.
Qed.

Lemma fancy_index_zip {A B} (X : list A) (Y : list B) (idx : list nat)
    (X' : list A) (Y' : list B) :
  Np.fancy_index X idx = Some X' -> Np.fancy_index Y idx = Some Y' ->
  Np.fancy_index (zip X Y) idx = Some (zip X' Y').
Proof.
  unfold Np.fancy_index. intros HX HY.
  apply mapM_Some_1 in HX. apply mapM_Some_1 in HY. apply mapM_Some_2.
  revert Y' HY. induction HX as [|i x idx X' Hx HX IH]; intros Y' HY.
  - inversion HY. constructor.
  - inversion HY as [|i' y idx' Y'' Hy HY']; subst. simpl. constructor.
    + rewrite lookup_zip_with, Hx. simpl. by rewrite Hy.
    + by apply IH.
Qed.

Section Shuffle.
Context `{Numpy}.

Lemma shuffle_Some_inv {A B} (X : list A) (Y : list B) (s : rng_state)
    (X' : list A) (Y' : list B) (s' : rng_state) :
  Mnist.shuffle X Y s = Some ((X', Y'), s') ->
  length X = length Y /\
  Np.fancy_index X (permutation (length X) s).1 = Some X' /\
  Np.fancy_index Y (permutation (length X) s).1 = Some Y' /\
  s' = (permutation (length X) s).2.
Proof.
  unfold Mnist.shuffle.
  destruct (Nat.eqb_spec (length X) (length Y)) as [Hlen|]; [|done]. simpl.
  destruct (permutation (length X) s) as [idx s1]. simpl.
  intros Hs.
  apply bind_Some in Hs as (X1 & HX1 & Hs).
  apply bind_Some in Hs as (Y1 & HY1 & Hs).
  injection Hs as <- <- <-. done.
Qed.

Lemma shuffle_permutes {A B} (X : list A) (Y : list B) (s : rng_state) :
  length X = length Y ->
  exists X' Y',
    Mnist.shuffle X Y s = Some ((X', Y'), (permutation (length X) s).2) /\
    Permutation (zip X' Y') (zip X Y) /\
    Permutation X' X /\ Permutation Y' Y.
Proof.
  intros Hlen.
  destruct (shuffle_lookup X Y s Hlen) as (X' & Y' & Hs & _).
  exists X', Y'. split; [exact Hs|].
  apply shuffle_Some_inv in Hs as (_ & HX & HY & _).
  pose proof (permutation_perm (length X) s) as Hperm.
  split; [|split].
  - eapply fancy_index_permutation; [|by apply fancy_index_zip].
    by rewrite length_zip_with, <- Hlen, Nat.min_id.
  - by eapply fancy_index_permutation.
  - eapply fancy_index_permutation; [|exact HY]. by rewrite <- Hlen.
Qed.

(** X8.  [sklearn.utils.shuffle(X, Y)] returns the same samples in another
    order: the returned pairs (feature, label) are a rearrangement of the
    given pairs, so nothing is lost, nothing is duplicated and no feature
    changes its label.  It raises only for arrays of different length. *)
Theorem X8_shuffle_keeps_pairs {A B} (X : list A) (Y : list B) (s : rng_state) :
  length X = length Y ->
  exists X' Y',
    Mnist.shuffle X Y s = Some ((X', Y'), (permutation (length X) s).2) /\
    Permutation (zip X' Y') (zip X Y) /\
    Permutation X' X /\ Permutation Y' Y.
Proof. apply shuffle_permutes. Qed.

Lemma shuffle_None {A B} (X : list A) (Y : list B) (s : rng_state) :
  Mnist.shuffle X Y s = None <-> length X <> length Y.
Proof.
  split.
  - intros Hnone Hlen.
    destruct (shuffle_lookup X Y s Hlen) as (X' & Y' & Hs & _). congruence.
  - intros Hlen. unfold Mnist.shuffle.
    by destruct (Nat.eqb_spec (length X) (length Y)).
Qed.
End Shuffle.

Lemma X8_shuffle_keeps_pairs_witness :
  exists X' Y',
    Mnist.shuffle (H := counter_numpy) [10; 11; 12] [true; false; true] 7 =
      Some ((X', Y'), 8) /\
    Permutation (zip X' Y') [(10, true); (11, false); (12, true)].
Proof.
  destruct (X8_shuffle_keeps_pairs (H := counter_numpy) [10; 11; 12]
              [true; false; true] 7 eq_refl) as (X' & Y' & Hs & Hperm & _).
  exists X', Y'. split; [exact Hs|exact Hperm].
Defined.

(** ** When [fetch_mnist] returns, and what *)

Lemma length_concat_map_map {A B} (f : A -> B) (M : list (list A)) :
  length (concat (map (map f) M)) = length (concat M).
Proof.
  induction M as [|row M IH]; simpl; [done|].
  by rewrite !length_app, length_map, IH.
Qed.

Lemma reshape_images_Some (X : matrix) (imgs : Mnist.images) :
  Mnist.reshape_images X = Some imgs <->
  (length (concat X) mod 784 = 0)%nat /\
  imgs = map (Mnist.chunks 28 28)
             (Mnist.chunks 784 (length (concat X) / 784) (concat X)).
Proof.
  unfold Mnist.reshape_images.
  destruct (Nat.eqb_spec (length (concat X) mod 784) 0) as [Hmod|Hmod].
  - split; [intros Heq; split; [done|congruence]|intros [_ ->]; done].
  - split; [done|]. intros [? _]. done.
Qed.

Lemma is_image_map (f : R -> R) (img : matrix) :
  Mnist.is_image img -> Mnist.is_image (map (map f) img).
Proof.
  intros [Hrows Hcols]. split; [by rewrite length_map|].
  apply Forall_fmap. eapply Forall_impl; [exact Hcols|].
  intros row Hrow. simpl. by rewrite length_map.
Qed.

Lemma zip_map_map {A B C D} (f : A -> C) (g : B -> D) (l : list A) (k : list B) :
  zip (map f l) (map g k) = map (fun xy => (f xy.1, g xy.2)) (zip l k).
Proof.
  revert k. induction l as [|x l IH]; intros [|y k]; simpl; [done..|].
  by rewrite IH.
Qed.

Section FetchMnistMore.
Context `{Numpy}.
Import Mnist.

(** The statements of [fetch_mnist] with the slices written as prefixes and
    suffixes. *)
Lemma fetch_mnist_unfold (mnist : bunch) (ambient : rng_state) :
  let T := Z.to_nat 60000 in
  let X := map (map (fun v => (IZR v / 255)%R)) (data mnist) in
  fetch_mnist mnist ambient =
  (X_train ← reshape_images (take T X);
   X_test ← reshape_images (drop T X);
   '((X_train, Y_train), s1) ←
     shuffle X_train (map Np.astype_int (take T (target mnist))) (seed_state 0);
   Y_train ← one_hot_labels Y_train;
   Y_test ← one_hot_labels (map Np.astype_int (drop T (target mnist)));
   Some ((map (map (map astype_float32)) X_train, Y_train,
          map (map (map astype_float32)) X_test, Y_test), s1)).
Proof.
  intros T X. unfold fetch_mnist. fold X.
  by rewrite !slice_prefix, !slice_suffix by lia.
Qed.

(** What a successful call has computed on the way. *)
Lemma fetch_mnist_Some_inv (mnist : bunch) (ambient : rng_state)
    (Xtr : images) (Ytr : matrix) (Xte : images) (Yte : matrix) (s' : rng_state) :
  let T := Z.to_nat 60000 in
  let X := map (map (fun v => (IZR v / 255)%R)) (data mnist) in
  let Y0 := map Np.astype_int (take T (target mnist)) in
  let Y1 := map Np.astype_int (drop T (target mnist)) in
  fetch_mnist mnist ambient = Some ((Xtr, Ytr, Xte, Yte), s') ->
  exists X1 X2 X' Y',
    reshape_images (take T X) = Some X1 /\
    reshape_images (drop T X) = Some X2 /\
    shuffle X1 Y0 (seed_state 0) = Some ((X', Y'), s') /\
    Forall (fun c => 0 <= c < 10) Y' /\ Forall (fun c => 0 <= c < 10) Y1 /\
    Xtr = map (map (map astype_float32)) X' /\
    Ytr = map (Sparse.one_hot 10) Y' /\
    Xte = map (map (map astype_float32)) X2 /\
    Yte = map (Sparse.one_hot 10) Y1.
Proof.
  intros T X Y0 Y1 Hf. rewrite fetch_mnist_unfold in Hf. fold T X Y0 Y1 in Hf.
  apply bind_Some in Hf as (X1 & HX1 & Hf).
  apply bind_Some in Hf as (X2 & HX2 & Hf).
  apply bind_Some in Hf as ([[X' Y'] s1] & Hs & Hf).
  apply bind_Some in Hf as (L1 & HL1 & Hf).
  apply bind_Some in Hf as (L2 & HL2 & Hf).
  apply one_hot_labels_inv in HL1 as [HY' ->].
  apply one_hot_labels_inv in HL2 as [HY1 ->].
  assert (Xtr = map (map (map astype_float32)) X' /\
          Ytr = map (Sparse.one_hot 10) Y' /\
          Xte = map (map (map astype_float32)) X2 /\
          Yte = map (Sparse.one_hot 10) Y1 /\ s' = s1) as (-> & -> & -> & -> & ->).
  { by injection Hf as <- <- <- <- <-. }
  by exists X1, X2, X', Y'.
Qed.

(** X9.  [fetch_mnist] returns exactly when the pixels of the first 60000
    corpus rows and those of the remaining rows each fill whole 28 x 28
    images, the training images are as many as the training targets, and
    every target is a digit from 0 to 9.  In every other case one of
    [reshape], [shuffle] or [csr_matrix] raises. *)
Theorem X9_fetch_mnist_succeeds_iff (mnist : bunch) (ambient : rng_state) :
  let T := Z.to_nat 60000 in
  is_Some (fetch_mnist mnist ambient) <->
  (length (concat (take T (data mnist))) mod 784 = 0)%nat /\
  (length (concat (drop T (data mnist))) mod 784 = 0)%nat /\
  (length (concat (take T (data mnist))) / 784 =
     length (take T (target mnist)))%nat /\
  Forall (fun t => 0 <= Np.astype_int t < 10) (target mnist).
Proof.
  intros T.
  set (X := map (map (fun v => (IZR v / 255)%R)) (data mnist)).
  assert (HlenTr : length (concat (take T X)) = length (concat (take T (data mnist)))).
  { unfold X. rewrite firstn_map. apply length_concat_map_map. }
  assert (HlenTe : length (concat (drop T X)) = length (concat (drop T (data mnist)))).
  { unfold X. rewrite skipn_map. apply length_concat_map_map. }
  split.
  - intros [[[[[Xtr Ytr] Xte] Yte] s'] Hf].
    apply fetch_mnist_Some_inv in Hf
      as (X1 & X2 & X' & Y' & HX1 & HX2 & Hs & HY' & HY1 & _).
    fold T X in HX1, HX2, Hs, HY1.
    apply reshape_images_Some in HX1 as [Hmod1 ->].
    apply reshape_images_Some in HX2 as [Hmod2 _].
    apply shuffle_Some_inv in Hs as (Hlen & _ & HYperm & _).
    rewrite length_map, chunks_length in Hlen.
    rewrite length_map, chunks_length in HYperm.
    rewrite HlenTr in *. rewrite HlenTe in *.
    split; [done|]. split; [done|]. split; [by rewrite length_map in Hlen|].
    rewrite <- (take_drop T (target mnist)). apply Forall_app. split.
    + apply fancy_index_permutation in HYperm.
      2:{ rewrite Hlen. apply permutation_perm. }
      rewrite HYperm in HY'. by apply Forall_fmap in HY'.
    + by apply Forall_fmap in HY1.
  - intros (Hmod1 & Hmod2 & Hlen & Hdigits).
    rewrite fetch_mnist_unfold. fold T X.
    destruct (reshape_images (take T X)) as [X1|] eqn:HX1.
    2:{ apply eq_None_not_Some in HX1. destruct HX1.
        eexists. apply reshape_images_Some. split; [by rewrite HlenTr|done]. }
    destruct (reshape_images (drop T X)) as [X2|] eqn:HX2.
    2:{ apply eq_None_not_Some in HX2. destruct HX2.
        eexists. apply reshape_images_Some. split; [by rewrite HlenTe|done]. }
    cbn [mbind option_bind].
    apply reshape_images_Some in HX1 as [_ HX1].
    assert (HlenX1 : length X1 = length (map Np.astype_int (take T (target mnist)))).
    { rewrite HX1, !length_map, chunks_length, HlenTr. done. }
    rewrite <- (take_drop T (target mnist)) in Hdigits.
    apply Forall_app in Hdigits as [Hd0 Hd1].
    destruct (shuffle_permutes X1 _ (seed_state 0) HlenX1)
      as (X' & Y' & -> & _ & _ & HpermY).
    cbn [mbind option_bind].
    rewrite (one_hot_labels_eq Y').
    2:{ rewrite HpermY. by apply Forall_fmap. }
    cbn [mbind option_bind].
    rewrite one_hot_labels_eq by (by apply Forall_fmap).
    cbn [mbind option_bind]. eauto.
Qed.
End FetchMnistMore.

Lemma reshape_images_shape (X : matrix) (imgs : Mnist.images) :
  Mnist.reshape_images X = Some imgs ->
  Forall Mnist.is_image imgs /\ (length imgs * 784 = length (concat X))%nat.
Proof.
  intros Himgs. apply reshape_images_Some in Himgs as [Hmod ->].
  set (flat := concat X) in *. set (c := (length flat / 784)%nat).
  assert (Hc : (c * 784 = length flat)%nat).
  { pose proof (Nat.div_mod_eq (length flat) 784) as Hd. rewrite Hmod in Hd.
    unfold c. rewrite Nat.mul_comm. rewrite Nat.add_0_r in Hd. by rewrite <- Hd. }
  split; [|by rewrite length_map, chunks_length].
  apply Forall_fmap.
  eapply Forall_impl; [apply chunks_full; by rewrite Hc|].
  intros piece Hpiece. exact (chunk_is_image piece Hpiece).
Qed.

Section FetchMnistShapes.
Context `{Numpy}.
Import Mnist.

(** X10.  Whenever [fetch_mnist] returns, every training and test image has
    28 rows of 28 values, every label row has 10 entries, and the training
    images are as many as the training labels.  The test images and the test
    labels are counted separately, from the corpus rows and from the targets
    past position 60000: nothing compares the two counts. *)
Theorem X10_fetch_mnist_shapes (mnist : bunch) (ambient : rng_state)
    (Xtr : images) (Ytr : matrix) (Xte : images) (Yte : matrix) (s' : rng_state) :
  fetch_mnist mnist ambient = Some ((Xtr, Ytr, Xte, Yte), s') ->
  Forall is_image Xtr /\ Forall is_image Xte /\
  Forall (fun row => length row = 10%nat) Ytr /\
  Forall (fun row => length row = 10%nat) Yte /\
  length Xtr = length Ytr /\
  (length Xte * 784 =
     length (concat (drop (Z.to_nat 60000) (data mnist))))%nat /\
  length Yte = length (drop (Z.to_nat 60000) (target mnist)).
Proof.
  intros Hf.
  apply fetch_mnist_Some_inv in Hf
    as (X1 & X2 & X' & Y' & HX1 & HX2 & Hs & _ & _ & -> & -> & -> & ->).
  apply reshape_images_shape in HX1 as [Himg1 _].
  apply reshape_images_shape in HX2 as [Himg2 Hn2].
  pose proof Hs as Hs'. apply shuffle_Some_inv in Hs' as (Hlen & HX' & HY' & _).
  apply fancy_index_permutation in HX'; [|apply permutation_perm].
  pose proof (length_mapM _ _ _ HY') as HlenY'.
  pose proof (Permutation_length HX') as HlenX'.
  pose proof (Permutation_length (permutation_perm (length X1) (seed_state 0))) as Hidx.
  rewrite length_seq in Hidx.
  split; [|split; [|split; [|split; [|split; [|split]]]]].
  - apply Forall_fmap. rewrite HX'. eapply Forall_impl; [exact Himg1|].
    intros img Himg. by apply is_image_map.
  - apply Forall_fmap. eapply Forall_impl; [exact Himg2|].
    intros img Himg. by apply is_image_map.
  - apply Forall_fmap, Forall_true. intros c. apply one_hot_length.
  - apply Forall_fmap, Forall_true. intros c. apply one_hot_length.
  - rewrite !length_map. lia.
  - rewrite length_map, Hn2, skipn_map. apply length_concat_map_map.
  - by rewrite !length_map.
Qed.

(** X11.  For a corpus whose rows have 784 pixels each, the training set
    [fetch_mnist] returns is a rearrangement of the first 60000 corpus
    samples, each prepared image still paired with the one-hot row of its own
    digit, and the test set is the remaining samples, prepared, in corpus
    order. *)
Theorem X11_fetch_mnist_samples (mnist : bunch) (ambient : rng_state)
    (Xtr : images) (Ytr : matrix) (Xte : images) (Yte : matrix) (s' : rng_state) :
  Forall (fun row => length row = 784%nat) (data mnist) ->
  fetch_mnist mnist ambient = Some ((Xtr, Ytr, Xte, Yte), s') ->
  let T := Z.to_nat 60000 in
  Permutation (zip Xtr Ytr)
              (zip (map prepare_image (take T (data mnist)))
                   (map prepare_label (take T (target mnist)))) /\
  Xte = map prepare_image (drop T (data mnist)) /\
  Yte = map prepare_label (drop T (target mnist)).
Proof.
  intros Hrows Hf T.
  apply fetch_mnist_Some_inv in Hf
    as (X1 & X2 & X' & Y' & HX1 & HX2 & Hs & _ & _ & -> & -> & -> & ->).
  fold T in HX1, HX2, Hs.
  set (X := map (map (fun v => (IZR v / 255)%R)) (data mnist)) in *.
  assert (HX : Forall (fun row => length row = 784%nat) X).
  { apply Forall_fmap. eapply Forall_impl; [exact Hrows|].
    intros row Hrow. simpl. by rewrite length_map. }
  rewrite reshape_images_rows in HX1 by (by apply Forall_take).
  rewrite reshape_images_rows in HX2 by (by apply Forall_drop).
  injection HX1 as <-. injection HX2 as <-.
  pose proof Hs as Hs'. apply shuffle_Some_inv in Hs' as (Hlen & _).
  destruct (shuffle_permutes _ _ (seed_state 0) Hlen) as (X'' & Y'' & Hs'' & Hperm & _).
  rewrite Hs in Hs''. injection Hs'' as <- <- _.
  split; [|split].
  - rewrite zip_map_map.
    rewrite (Permutation_map _ Hperm).
    rewrite <- zip_map_map. unfold X.
    rewrite firstn_map, !map_map. done.
  - unfold X. rewrite skipn_map, !map_map. done.
  - by rewrite map_map.
Qed.
End FetchMnistShapes.

Lemma X10_fetch_mnist_shapes_witness :
  exists (Xtr : list matrix) (Ytr : matrix),
    Forall Mnist.is_image Xtr /\ length Xtr = length Ytr /\ length Xtr = 2%nat.
Proof.
  destruct two_digits_well_formed as (H1 & H2 & H3).
  destruct (fetch_mnist_returns (H := counter_numpy) two_digits 0 H1 H2 H3)
    as (Xtr & Ytr & Xte & Yte & E & HnX & _).
  exists Xtr, Ytr.
  destruct (X10_fetch_mnist_shapes (H := counter_numpy) two_digits 0 Xtr Ytr Xte Yte _ E)
    as (Himg & _ & _ & _ & Hlen & _).
  split; [exact Himg|]. split; [exact Hlen|exact HnX].
Defined.

Lemma X11_fetch_mnist_samples_witness :
  exists Xte Yte,
    Xte = map (Mnist.prepare_image (H := counter_numpy))
              (drop (Z.to_nat 60000) (Mnist.data two_digits)) /\
    Yte = map Mnist.prepare_label (drop (Z.to_nat 60000) (Mnist.target two_digits)).
Proof.
  destruct two_digits_well_formed as (H1 & H2 & H3).
  destruct (fetch_mnist_returns (H := counter_numpy) two_digits 0 H1 H2 H3)
    as (Xtr & Ytr & Xte & Yte & E & _).
  exists Xte, Yte.
  destruct (X11_fetch_mnist_samples (H := counter_numpy) two_digits 0 Xtr Ytr Xte Yte _ H2 E)
    as (_ & HXte & HYte).
  split; [exact HXte|exact HYte].
Defined.

(** ** Reading the class back from a label row *)

Lemma one_hot_unique_max (m : nat) (c : Z) :
  0 <= c < Z.of_nat m -> Np.is_unique_max (Sparse.one_hot m c) (Z.to_nat c).
Proof.
  intros Hc. exists 1%R. unfold Sparse.one_hot. split.
  - rewrite list_lookup_insert, length_replicate. by rewrite decide_True by lia.
  - intros j x Hj Hx.
    rewrite list_lookup_insert, decide_False in Hx by (intros [? _]; lia).
    apply lookup_replicate in Hx as [-> _]. lra.
Qed.

(** X12.  Decoding undoes encoding: for a class [c] among [m] classes,
    [argmax] of the one-hot row of [c] is [c], so the labels the scripts
    print with [label.argmax()] are the classes the rows were built from. *)
Theorem X12_argmax_one_hot (m : nat) (c : Z) :
  0 <= c < Z.of_nat m ->
  Np.argmax (Sparse.one_hot m c) = Some (Z.to_nat c).
Proof. intros Hc. by apply argmax_unique_max, one_hot_unique_max. Qed.

Lemma X12_argmax_one_hot_witness :
  Np.argmax (Sparse.one_hot 10 7) = Some 7%nat.
Proof. apply (X12_argmax_one_hot 10 7). lia. Defined.

Lemma argmax_one_hot_rows (m : nat) (Y : list Z) :
  Forall (fun c => 0 <= c < Z.of_nat m) Y ->
  mapM Np.argmax (map (Sparse.one_hot m) Y) = Some (map Z.to_nat Y).
Proof.
  intros HY. apply mapM_Some_2.
  induction HY as [|c Y Hc HY IH]; simpl; constructor; [|done].
  by apply argmax_unique_max, one_hot_unique_max.
Qed.

Section PrintedLabels.
Context `{Numpy}.

(** X13.  The labels printed for a generated batch are the classes that were
    drawn: for the arrays [X, Y] that [generate_synthetic_data(N)] returns,
    [[label.argmax() for label in Y]] is the list of the [N] values of
    [randint], each 0 or 1. *)
Theorem X13_generated_labels_printed (N : nat) (s : rng_state) :
  exists X Y s',
    LogisticRegression.generate_synthetic_data N s = Some ((X, Y), s') /\
    LogisticRegression.printed_labels Y =
      Some (map Z.to_nat (randint N 0 (Z.of_nat LogisticRegression.num_classes) s).1) /\
    forall cls, LogisticRegression.printed_labels Y = Some cls ->
      length cls = N /\ Forall (fun c => (c < LogisticRegression.num_classes)%nat) cls.
Proof.
  pose proof (generate_synthetic_data_eq N s) as Heq. cbv zeta in Heq.
  pose proof (randint_length N 0 (Z.of_nat LogisticRegression.num_classes) s) as Hlen.
  pose proof (randint_range N 0 (Z.of_nat LogisticRegression.num_classes) s ltac:(done))
    as Hrange.
  eexists _, _, _. split; [exact Heq|].
  assert (Hprint : LogisticRegression.printed_labels
            (map (Sparse.one_hot LogisticRegression.num_classes)
               (randint N 0 (Z.of_nat LogisticRegression.num_classes) s).1) =
          Some (map Z.to_nat (randint N 0 (Z.of_nat LogisticRegression.num_classes) s).1)).
  { by apply argmax_one_hot_rows. }
  split; [exact Hprint|].
  intros cls Hcls. rewrite Hprint in Hcls. injection Hcls as <-.
  split; [by rewrite length_map|].
  apply Forall_fmap. eapply Forall_impl; [exact Hrange|].
  intros c Hc. unfold LogisticRegression.num_classes in *. simpl in *. lia.
Qed.

(** X14.  The labels printed for MNIST test samples are the digits of the
    corpus: whenever [fetch_mnist] returns, [label.argmax()] of test label
    row [k] is the target of corpus row [60000 + k], truncated to an
    integer. *)
Theorem X14_mnist_test_labels_printed (mnist : Mnist.bunch) (ambient : rng_state)
    (Xtr : Mnist.images) (Ytr : matrix) (Xte : Mnist.images) (Yte : matrix)
    (s' : rng_state) :
  Mnist.fetch_mnist mnist ambient = Some ((Xtr, Ytr, Xte, Yte), s') ->
  Mnist.printed_labels Yte =
  Some (map (fun t => Z.to_nat (Np.astype_int t))
            (drop (Z.to_nat 60000) (Mnist.target mnist))).
Proof.
  intros Hf.
  apply fetch_mnist_Some_inv in Hf
    as (X1 & X2 & X' & Y' & _ & _ & _ & _ & HY1 & _ & _ & _ & ->).
  unfold Mnist.printed_labels.
  rewrite (argmax_one_hot_rows 10 _ HY1). by rewrite map_map.
Qed.
End PrintedLabels.

Lemma one_test_row_well_formed :
  length (Mnist.data one_test_row) = length (Mnist.target one_test_row) /\
  Forall (fun row => length row = 784%nat) (Mnist.data one_test_row) /\
  Forall (fun t => 0 <= Np.astype_int t < 10) (Mnist.target one_test_row).
Proof.
  unfold one_test_row. cbn [Mnist.data Mnist.target].
  split; [by rewrite !length_replicate|]. split.
  - apply Forall_replicate, length_replicate.
  - apply Forall_replicate. rewrite astype_int_IZR. lia.
Qed.

Lemma one_test_row_targets :
  drop (Z.to_nat 60000) (Mnist.target one_test_row) = [7%R].
Proof.
  unfold one_test_row. cbn [Mnist.target]. rewrite drop_replicate.
  by replace (Z.to_nat 60001 - Z.to_nat 60000)%nat with 1%nat by lia.
Qed.

Lemma X14_mnist_test_labels_printed_witness :
  exists Yte : matrix,
    length Yte = 1%nat /\ Mnist.printed_labels Yte = Some [7%nat].
Proof.
  destruct one_test_row_well_formed as (H1 & H2 & H3).
  destruct (fetch_mnist_returns (H := counter_numpy) one_test_row 0 H1 H2 H3)
    as (Xtr & Ytr & Xte & Yte & E & _ & _ & _ & HnY & _).
  exists Yte. split.
  - rewrite HnY. unfold one_test_row. cbn [Mnist.data].
    rewrite length_replicate. lia.
  - rewrite (X14_mnist_test_labels_printed (H := counter_numpy) one_test_row 0
               Xtr Ytr Xte Yte _ E).
    rewrite one_test_row_targets. cbn [map]. by rewrite astype_int_IZR.
Defined.

(** ** Predicted classes *)

Lemma argmax_in_range (z : vector) (k : nat) :
  Np.argmax z = Some k -> (k < length z)%nat.
Proof.
  intros Hk. apply argmax_max in Hk as (m & Hm & _). by apply lookup_lt_Some in Hm.
Qed.

Lemma predictions_valid (p : LogisticRegression.params) (X : matrix) :
  LogisticRegression.well_shaped p ->
  Forall (fun row => length row = LogisticRegression.input_dim) X ->
  exists cls,
    LogisticRegression.get_probability p X ≫= LogisticRegression.predicted = Some cls /\
    length cls = length X /\
    Forall (fun c => (c < LogisticRegression.num_classes)%nat) cls.
Proof.
  intros Hp HX.
  destruct (get_probability_distribution p X Hp HX) as (P & -> & Hlen & Hdist).
  simpl. unfold LogisticRegression.predicted.
  assert (Hsome : is_Some (mapM Np.argmax P)).
  { apply mapM_is_Some_2. eapply Forall_impl; [exact Hdist|].
    intros q (Hq & _). simpl. destruct q; [done|]. simpl. eauto. }
  destruct Hsome as [cls Hcls]. exists cls. split; [exact Hcls|].
  pose proof (length_mapM _ _ _ Hcls) as Hl. split; [lia|].
  apply mapM_Some_1 in Hcls.
  apply Forall_lookup. intros i c Hc.
  eapply Forall2_lookup_r in Hcls as (q & Hq & Harg); [|exact Hc].
  eapply Forall_lookup_1 in Hdist as (Hqlen & _); [|exact Hq].
  apply argmax_in_range in Harg. lia.
Qed.

(** X15.  The predictions printed for a batch are valid classes: for
    parameters of the declared shapes and feature rows of the input
    dimension, [[result[i,:].argmax() for i in range(len(result))]] has one
    entry per sample, and every entry is 0 or 1. *)
Theorem X15_predictions_are_classes (p : LogisticRegression.params) (X : matrix) :
  LogisticRegression.well_shaped p ->
  Forall (fun row => length row = LogisticRegression.input_dim) X ->
  exists cls,
    LogisticRegression.get_probability p X ≫= LogisticRegression.predicted = Some cls /\
    length cls = length X /\
    Forall (fun c => (c < LogisticRegression.num_classes)%nat) cls.
Proof. apply predictions_valid. Qed.

Lemma X15_predictions_are_classes_witness :
  exists cls,
    LogisticRegression.get_probability identity_params [[1; 2]; [3; 1]]%R
      ≫= LogisticRegression.predicted = Some cls /\
    length cls = 2%nat.
Proof.
  destruct (X15_predictions_are_classes identity_params [[1; 2]; [3; 1]]%R)
    as (cls & Hcls & Hlen & _).
  - repeat split; repeat constructor.
  - repeat constructor.
  - exists cls. split; [exact Hcls|exact Hlen].
Defined.

(** ** Input sizes the MNIST network accepts *)

Section Architecture.
Import Cntk.Layers.
Local Open Scope nat_scope.

Lemma window_extent_padded (n k : nat) : window_extent true n k 1 = Some n.
Proof.
  unfold window_extent. simpl (1 =? 0). cbv iota.
  f_equal. rewrite Nat.add_sub. apply Nat.div_1_r.
Qed.

Lemma window_extent_unpadded (n k s : nat) :
  s <> 0 ->
  window_extent false n k s = if n <? k then None else Some ((n - k) / s + 1).
Proof.
  intros Hs. unfold window_extent.
  by destruct (Nat.eqb_spec s 0).
Qed.

(** X16.  Under the shape rules of the layers, the network of the MNIST
    script can be built for an image of [h] by [w] pixels exactly when both
    [h] and [w] are at least 19, and it then maps the image to 10 scores;
    for a smaller image one of the unpadded windows does not fit and the
    construction fails. *)
Theorem X16_mnist_model_input_sizes (h w : nat) :
  Sequential Mnist.model [h; w] =
  if (19 <=? h) && (19 <=? w) then Some [Mnist.num_classes] else None.
Proof.
  unfold Mnist.model.
  cbn [Sequential out_shape mbind option_bind].
  rewrite !window_extent_padded. cbn [mbind option_bind Sequential out_shape].
  rewrite !window_extent_unpadded by lia.
  destruct (Nat.leb_spec 19 h) as [Hh|Hh], (Nat.leb_spec 19 w) as [Hw|Hw];
    cbn [andb];
    repeat (match goal with
            | |- context [?a <? ?b] => destruct (Nat.ltb_spec a b)
            end;
            cbn [mbind option_bind Sequential out_shape];
            rewrite ?window_extent_unpadded by lia);
    try done; exfalso.
  all: repeat match goal with
         | H : context [?a / 1] |- _ => rewrite (Nat.div_1_r a) in H
         end.
  all: repeat match goal with
         | H : context [(?a / 2)] |- _ =>
             let q := fresh "q" in
             pose proof (Nat.div_mod_eq a 2);
             pose proof (Nat.mod_upper_bound a 2 ltac:(lia));
             set (q := a / 2) in *; clearbody q
         end.
  all: lia.
Qed.
End Architecture.

(** ** The results read from the progress record *)

Lemma getitem_last {A} (l : list A) : Py.getitem l (-1) = last l.
Proof.
  unfold Py.getitem, Py.len.
  change (-1 <? 0) with true. cbv iota.
  destruct l as [|x l _] using rev_ind; [reflexivity|].
  rewrite last_snoc, length_app. simpl length.
  destruct (Z.leb_spec 0 (-1 + Z.of_nat (length l + 1))); [|lia].
  destruct (Z.ltb_spec (-1 + Z.of_nat (length l + 1)) (Z.of_nat (length l + 1))); [|lia].
  cbn [andb].
  replace (Z.to_nat (-1 + Z.of_nat (length l + 1))) with (length l) by lia.
  by apply list_lookup_middle.
Qed.

(** X17.  The final loss, metric and sample count are those of the last
    epoch summary, together with the metric of the test summary; when
    training left no epoch summary, reading [epoch_summaries[-1]] raises. *)
Theorem X17_final_results_last_epoch (pr : Mnist.progress) :
  (Mnist.epoch_summaries pr = [] -> Mnist.final_results pr = None) /\
  (forall es e, Mnist.epoch_summaries pr = es ++ [e] ->
     Mnist.final_results pr =
     Some (Mnist.loss e, Mnist.metric e, Mnist.samples e,
           Mnist.metric (Mnist.test_summary pr))).
Proof.
  unfold Mnist.final_results. rewrite getitem_last. split.
  - intros ->. reflexivity.
  - intros es e ->. rewrite last_snoc. reflexivity.
Qed.

(** ** The logistic-regression script from top to bottom *)

Section ScriptRuns.
Import LogisticRegression.

Lemma train_steps_return (learner : params -> matrix * matrix -> params)
    (p : params) (bs : list (matrix * matrix)) :
  (forall q batch, well_shaped q -> well_shaped (learner q batch)) ->
  well_shaped p -> Forall valid_batch bs ->
  exists p', foldl (train_minibatch learner) (Some p) bs = Some p' /\ well_shaped p'.
Proof.
  intros Hlearner Hp Hbs. revert p Hp.
  induction Hbs as [|batch bs Hb Hbs IH]; intros p Hp; cbn [foldl].
  - by exists p.
  - destruct (metric_returns p batch Hp Hb) as [m Hm].
    replace (train_minibatch learner (Some p) batch) with (Some (learner p batch))
      by (unfold train_minibatch; cbn [mbind option_bind]; by rewrite Hm).
    apply IH. by apply Hlearner.
Qed.

Lemma train_returns (learner : params -> matrix * matrix -> params)
    (p : params) (X Y : matrix) :
  (forall q batch, well_shaped q -> well_shaped (learner q batch)) ->
  well_shaped p ->
  Forall (fun x => length x = input_dim) X ->
  Forall (fun y => y <> []) Y ->
  length X = length Y ->
  exists p', train learner p X Y = Some p' /\ well_shaped p'.
Proof.
  intros Hlearner Hp HX HY Hlen. rewrite train_foldl.
  rewrite (minibatches_blocks X Y minibatch_size) by done.
  set (bs := map _ _).
  assert (Hbs : Forall valid_batch bs) by (by apply blocks_valid).
  destruct (train_steps_return learner p bs Hlearner Hp Hbs) as (p' & E & Hp').
  exists p'. simpl. by rewrite E.
Qed.

Lemma rows_nonempty (k : nat) (Y : matrix) :
  k <> 0%nat -> Forall (fun row => length row = k) Y -> Forall (fun y => y <> []) Y.
Proof.
  intros Hk HY. eapply Forall_impl; [exact HY|].
  intros row Hrow ->. simpl in Hrow. lia.
Qed.

Section WithNumpy.
Context `{Numpy}.

Lemma generated_batch_printable (N : nat) (s : rng_state) :
  exists X Y s',
    generate_synthetic_data N s = Some ((X, Y), s') /\
    length X = N /\ Forall (fun row => length row = input_dim) X /\
    exists labels, printed_labels Y = Some labels /\
      length labels = N /\ Forall (fun c => (c < num_classes)%nat) labels.
Proof.
  pose proof (generate_synthetic_data_eq N s) as Heq. cbv zeta in Heq.
  destruct (generate_synthetic_data_rows N s)
    as (X & Y & s' & E & HX & HXr & _).
  rewrite E in Heq. injection Heq as HXeq HYeq _.
  pose proof (randint_length N 0 (Z.of_nat num_classes) s) as Hlen.
  pose proof (randint_range N 0 (Z.of_nat num_classes) s ltac:(done)) as Hrange.
  exists X, Y, s'. split; [exact E|]. split; [exact HX|]. split; [exact HXr|].
  eexists. split.
  - rewrite HYeq. by apply argmax_one_hot_rows.
  - split; [by rewrite length_map|].
    apply Forall_fmap. eapply Forall_impl; [exact Hrange|].
    intros c Hc. unfold num_classes in *. simpl in *. lia.
Qed.

(** X18.  The script runs to its end.  For initial parameters of the
    declared shapes and a learner whose updates keep these shapes, and from
    any state of the generator: the generated data are accepted by the
    training loop and the test loop, the inspection batch is evaluated, and
    the two printed lists, labels and predictions, have 25 entries each,
    every entry 0 or 1. *)
Theorem X18_script_runs (learner : params -> matrix * matrix -> params)
    (p0 : params) (ambient : rng_state) :
  well_shaped p0 ->
  (forall q batch, well_shaped q -> well_shaped (learner q batch)) ->
  exists labels preds,
    script learner p0 ambient = Some (labels, preds) /\
    length labels = 25%nat /\ length preds = 25%nat /\
    Forall (fun c => (c < num_classes)%nat) labels /\
    Forall (fun c => (c < num_classes)%nat) preds.
Proof.
  intros Hp0 Hlearner. unfold script, script_data.
  destruct (generate_synthetic_data_rows (Z.to_nat 20000) (Np.random_seed 0 ambient))
    as (X1 & Y1 & s1 & -> & HX1 & HX1r & HY1 & HY1r & _).
  cbn [mbind option_bind].
  destruct (generate_synthetic_data_rows (Z.to_nat 1000) s1)
    as (X2 & Y2 & s2 & -> & HX2 & HX2r & HY2 & HY2r & _).
  cbn [mbind option_bind].
  destruct (generated_batch_printable (Z.to_nat 25) s2)
    as (X3 & Y3 & s3 & -> & HX3 & HX3r & Hlabels).
  cbn [mbind option_bind X_train Y_train X_test Y_test X_check Y_check].
  destruct (train_returns learner p0 X1 Y1 Hlearner Hp0 HX1r
              (rows_nonempty num_classes Y1 ltac:(done) HY1r) ltac:(lia))
    as (p & -> & Hp).
  cbn [mbind option_bind].
  destruct (test_read_only p X2 Y2 Hp HX2r
              (rows_nonempty num_classes Y2 ltac:(done) HY2r) ltac:(lia))
    as (ev & -> & _).
  cbn [mbind option_bind].
  destruct (predictions_valid p X3 Hp HX3r) as (preds & Hpreds & Hlp & Hrp).
  destruct (get_probability p X3) as [result|]; [|done].
  cbn [mbind option_bind] in Hpreds |- *.
  destruct Hlabels as (labels & -> & Hll & Hrl).
  cbn [mbind option_bind]. rewrite Hpreds. cbn [mbind option_bind].
  exists labels, preds. split; [done|].
  split; [exact Hll|]. split; [lia|]. done.
Qed.
End WithNumpy.
End ScriptRuns.

Lemma X18_script_runs_witness :
  exists labels preds,
    LogisticRegression.script (H := counter_numpy) (fun p _ => p)
      identity_params 0 = Some (labels, preds) /\
    length labels = 25%nat /\ length preds = 25%nat.
Proof.
  destruct (X18_script_runs (H := counter_numpy) (fun p _ => p) identity_params 0)
    as (labels & preds & Hrun & Hl & Hp & _).
  - repeat split; repeat constructor.
  - intros q batch Hq. exact Hq.
  - exists labels, preds. split; [exact Hrun|]. split; [exact Hl|exact Hp].
Defined.
